(** * falcon.tabular: the tabular task manager and its configuration tables

    A shallow embedding of [falcon/tabular/tabular_manager.py] and
    [falcon/tabular/configurations.py].

    Python objects that are shared and mutated in place (the pipeline owned by
    the manager, its deep copy, the process environment) live in an explicit
    [world]; every method is a computation in the state-and-exception monad
    [Py].  Calls into collaborators that are not part of the two files
    (scikit-learn, numpy, [falcon.tabular.utils], the pipeline classes) are
    fields of the class [Collaborators]; each such call is recorded in the
    [trace] of the world before its outcome is known. *)

From Stdlib Require Import ZArith QArith Qround.
From stdpp Require Import base option list strings gmap.

Local Open Scope string_scope.
Local Open Scope list_scope.
Local Open Scope Z_scope.

(** ** Values *)

(** A cell of a table. *)
Inductive cell :=
| Num (z : Z)
| Str (s : string)
| Missing.

(** A numpy array: its [shape] tuple and its elements in row-major order. *)
Record ndarray := NDArray { shape : list Z; data : list cell }.

(** [a.size] *)
Definition size_of (a : ndarray) : Z := foldr Z.mul 1 (shape a).

(** [len(a.shape)] *)
Definition ndim (a : ndarray) : Z := Z.of_nat (length (shape a)).

(** [a.ravel()]: the same elements, seen as a vector. *)
Definition ravel (a : ndarray) : ndarray :=
  {| shape := [size_of a]; data := data a |}.

(** What callers may pass as [data]: a path, a numpy array or a data frame. *)
Inductive table :=
| Array (a : ndarray)
| Frame (columns : list string) (values : ndarray).

Inductive data_arg :=
| Path (path : string)
| Table (t : table).

(** A column named by label or by position ([Union[str, int]]). *)
Inductive col_ref :=
| ColName (name : string)
| ColIdx (idx : Z).

(** Exceptions. *)
Inductive exn :=
| IndexError
| UnboundLocalError
| ConfigurationError
| Raised (what : string).

Inductive outcome (A : Type) :=
| Ok (a : A)
| Raise (e : exn).
Arguments Ok {A} a.
Arguments Raise {A} e.

(** ** Pipelines and the classes named by the configuration tables *)

Inductive pipeline_cls := SimpleTabularPipeline | OtherPipeline (name : string).
Inductive learner_cls := SuperLearner | OptunaLearner | PlainLearner.
Inductive model_cls :=
| HistGradientBoostingClassifier
| HistGradientBoostingRegressor.

Section WithEstimators.

(** An estimator specification of [_default_estimators]; the tables only
    carry such lists around. *)
Context {estimator : Type}.

(** Values of the [learner_kwargs] dictionaries. *)
Inductive kwarg :=
| KInt (n : Z)
| KEstimators (es : list estimator)
| KModelClass (m : model_cls).

(** Values of pipeline option dictionaries. *)
Inductive optval :=
| OMask (mask : list bool)
| OLearner (l : learner_cls)
| OKwargs (kw : gmap string kwarg).

(** Modelled from the spec: the class [Pipeline] of [falcon.abstract] is not
    among the sources.  The spec treats it as a black box with
    [fit(X, y) -> self] and [predict(X) -> y_hat] and a fitted-state flag; the
    object keeps the class and options it was built from and the data of its
    last successful [fit] ([None]: unfit). *)
Record pipeline_obj := PipelineObj {
  p_class : pipeline_cls;
  p_options : gmap string optval;
  p_fitted : option (ndarray * ndarray)
}.

Definition is_fitted (p : pipeline_obj) : bool :=
  match p_fitted p with Some _ => true | None => false end.

Definition mark_fitted (X y : ndarray) (p : pipeline_obj) : pipeline_obj :=
  {| p_class := p_class p; p_options := p_options p; p_fitted := Some (X, y) |}.

End WithEstimators.
Arguments kwarg : clear implicits.
Arguments optval : clear implicits.
Arguments pipeline_obj : clear implicits.

(** ** Collaborators

    Functions the two files call but do not define.  Scores are floats and
    are kept abstract.  [train_test_split] shuffles with numpy's global
    generator, whose state is the [N] it receives. *)
Class Collaborators := {
  estimator : Type;
  Score : Type;
  (* numpy *)
  np_mean : list Score → Score;
  (* sklearn.model_selection *)
  train_test_split :
    N → ndarray → ndarray → Q → outcome (ndarray * ndarray * ndarray * ndarray);
  (* falcon.tabular.utils *)
  read_data : string → outcome table;
  clean_data_split : ndarray → ndarray → outcome (ndarray * ndarray);
  get_cat_mask : ndarray → outcome (list bool);
  tab_cv_score :
    pipeline_obj estimator → ndarray → ndarray → string →
    outcome (list Score) * pipeline_obj estimator;
  calculate_model_score : ndarray → ndarray → string → outcome Score;
  (* falcon.tabular.reporting *)
  print_classification_report : ndarray → ndarray → outcome unit;
  print_regression_report : ndarray → ndarray → outcome unit;
  (* Pipeline.fit and Pipeline.predict of the pipeline class *)
  fit_raises : pipeline_obj estimator → ndarray → ndarray → option exn;
  predict_with : pipeline_obj estimator → ndarray → outcome ndarray;
  (* falcon.tabular.learners.super_learner *)
  _default_estimators : string → string → list estimator
}.

Section Manager.
Context `{C : Collaborators}.

#[local] Abbreviation pipeline := (pipeline_obj estimator).

(** ** The world: environment, object store, generator state, trace *)

(** A reference to an object: its index in the store of its kind. *)
Definition ref := nat.

(** The attributes of a manager object.  [_data] is the prepared triple
    [(X, y, mask)]; [_pipeline] refers to the one pipeline object the manager
    owns. *)
Record TabularTaskManager := Manager {
  task : string;
  features : option (list col_ref);
  target : option col_ref;
  _data : ndarray * ndarray * list bool;
  _pipeline : ref
}.

Definition data_X (self : TabularTaskManager) : ndarray := (_data self).1.1.
Definition data_y (self : TabularTaskManager) : ndarray := (_data self).1.2.
Definition data_mask (self : TabularTaskManager) : list bool := (_data self).2.

(** Observable actions, in the order they happen. *)
Inductive event :=
| EvLog (msg : string)                       (* falcon.utils.print_ *)
| EvPrint (msg : string)                     (* builtin print *)
| EvPrintScore (avg_score : Score)           (* print(f"Score: {avg_score}") *)
| EvSetVerbosity (level : Z)
| EvReadData (path : string)
| EvCvScore (p : ref) (X y : ndarray) (task : string)
| EvTrainTestSplit (X y : ndarray) (test_size : Q)
| EvDeepcopy (src new : ref)
| EvFit (p : ref) (X y : ndarray)
| EvPredict (p : ref) (X : ndarray)
| EvModelScore (y_true y_pred : ndarray) (task : string)
| EvClassificationReport (y y_hat : ndarray)   (* print_classification_report *)
| EvRegressionReport (y y_hat : ndarray).      (* print_regression_report *)

(** [verbosity] is the environment variable FALCON_VERBOSITYLEVEL ([None]:
    not set); [heap] holds the pipeline objects and [managers] the manager
    objects.  Arrays and mask lists are values: no callee changes in place
    the array or list it is handed. *)
Record world := World {
  verbosity : option Z;
  heap : list pipeline;
  managers : list TabularTaskManager;
  rng : N;
  trace : list event
}.

Definition with_verbosity (v : option Z) (w : world) : world :=
  {| verbosity := v; heap := heap w; managers := managers w; rng := rng w;
     trace := trace w |}.
Definition with_heap (h : list pipeline) (w : world) : world :=
  {| verbosity := verbosity w; heap := h; managers := managers w;
     rng := rng w; trace := trace w |}.
Definition with_managers (ms : list TabularTaskManager) (w : world) : world :=
  {| verbosity := verbosity w; heap := heap w; managers := ms; rng := rng w;
     trace := trace w |}.
Definition with_rng (g : N) (w : world) : world :=
  {| verbosity := verbosity w; heap := heap w; managers := managers w;
     rng := g; trace := trace w |}.
Definition with_trace (t : list event) (w : world) : world :=
  {| verbosity := verbosity w; heap := heap w; managers := managers w;
     rng := rng w; trace := t |}.
Definition emit (e : event) (w : world) : world :=
  {| verbosity := verbosity w; heap := heap w; managers := managers w;
     rng := rng w; trace := trace w ++ [e] |}.

(** ** The monad of Python computations

    A computation ends in a value or in a raised exception; the world it
    leaves behind is kept in both cases. *)
Definition Py (A : Type) : Type := world → outcome A * world.

#[export] Instance Py_ret : MRet Py := λ A a w, (Ok a, w).
#[export] Instance Py_bind : MBind Py := λ A B f m w,
  match m w with
  | (Ok a, w') => f a w'
  | (Raise e, w') => (Raise e, w')
  end.
#[export] Instance Py_fmap : FMap Py := λ A B f m w,
  match m w with
  | (Ok a, w') => (Ok (f a), w')
  | (Raise e, w') => (Raise e, w')
  end.

Definition raise {A} (e : exn) : Py A := λ w, (Raise e, w).
Definition lift_outcome {A} (o : outcome A) : Py A := λ w, (o, w).
Definition act (e : event) : Py unit := λ w, (Ok tt, emit e w).
Definition get_world : Py world := λ w, (Ok w, w).

(** The value returned and the world left by running [m] from [w]. *)
Definition result_of {A} (m : Py A) (w : world) : outcome A := fst (m w).
Definition world_after {A} (m : Py A) (w : world) : world := snd (m w).
Definition returns {A} (m : Py A) (w : world) : bool :=
  match result_of m w with Ok _ => true | Raise _ => false end.

(** ** Environment and output *)

(** [print_] of [falcon.utils] and the builtin [print]. *)
Definition print_ (msg : string) : Py unit := act (EvLog msg).
Definition print (msg : string) : Py unit := act (EvPrint msg).

(** [int(os.getenv("FALCON_VERBOSITYLEVEL", "1"))] *)
Definition getenv_verbosity : Py Z :=
  λ w, (Ok (default 1 (verbosity w)), w).

(** The level a reader of the environment sees. *)
Definition verbosity_level (w : world) : Z := default 1 (verbosity w).

(** Modelled from the spec: [set_verbosity_level] of [falcon.utils] is not
    among the sources; the spec has one process-wide verbosity level,
    readable and writable, which is what [train] reads back with
    [os.getenv]. *)
Definition set_verbosity_level (level : Z) : Py unit :=
  λ w, (Ok tt, emit (EvSetVerbosity level) (with_verbosity (Some level) w)).

(** ** Pipeline objects in the store *)

Definition deref (p : ref) : Py pipeline :=
  λ w, match heap w !! p with
       | Some o => (Ok o, w)
       | None => (Raise (Raised "dangling reference"), w)
       end.

Definition store (p : ref) (o : pipeline) : Py unit :=
  λ w, (Ok tt, with_heap (<[p := o]> (heap w)) w).

(** A new pipeline object. *)
Definition alloc (o : pipeline) : Py ref :=
  λ w, (Ok (length (heap w)), with_heap (heap w ++ [o]) w).

(** [deepcopy(p)]: a new object with the same contents, sharing nothing. *)
Definition deepcopy (p : ref) : Py ref :=
  o ← deref p;
  new ← alloc o;
  act (EvDeepcopy p new) ;;
  mret new.

(** The attributes of the manager [self]. *)
Definition attrs (self : ref) : Py TabularTaskManager :=
  λ w, match managers w !! self with
       | Some m => (Ok m, w)
       | None => (Raise (Raised "dangling reference"), w)
       end.

Definition alloc_manager (m : TabularTaskManager) : Py ref :=
  λ w, (Ok (length (managers w)), with_managers (managers w ++ [m]) w).

(** Modelled from the spec: [Pipeline.fit] is not among the sources.
    [p.fit(X, y)] either raises, as the collaborator [fit_raises] decides, or
    leaves the object [p] fitted on [(X, y)]; it touches no other object. *)
Definition pipeline_fit (p : ref) (X y : ndarray) : Py unit :=
  act (EvFit p X y) ;;
  o ← deref p;
  match fit_raises o X y with
  | Some e => raise e
  | None => store p (mark_fitted X y o)
  end.

(** Modelled from the spec: [Pipeline.predict] is not among the sources.
    [p.predict(X)] reads the object [p] and changes nothing. *)
Definition pipeline_predict (p : ref) (X : ndarray) : Py ndarray :=
  act (EvPredict p X) ;;
  o ← deref p;
  lift_outcome (predict_with o X).

(** [tab_cv_score(p, X, y, task)]: the callee gets the object itself and may
    leave it changed. *)
Definition call_tab_cv_score (p : ref) (X y : ndarray) (task : string)
  : Py (list Score) :=
  act (EvCvScore p X y task) ;;
  o ← deref p;
  let '(r, o') := tab_cv_score o X y task in
  store p o' ;;
  lift_outcome r.

(** [train_test_split(X, y, test_size=t)] *)
Definition call_train_test_split (X y : ndarray) (t : Q)
  : Py (ndarray * ndarray * ndarray * ndarray) :=
  act (EvTrainTestSplit X y t) ;;
  w ← get_world;
  (λ w, (Ok tt, with_rng (N.succ (rng w)) w)) ;;
  lift_outcome (train_test_split (rng w) X y t).

(** [calculate_model_score(y, pred, task)] *)
Definition call_calculate_model_score (y pred : ndarray) (task : string)
  : Py Score :=
  act (EvModelScore y pred task) ;;
  lift_outcome (calculate_model_score y pred task).

(** [a.shape[i]] *)
Definition shape_at (a : ndarray) (i : nat) : Py Z :=
  match shape a !! i with
  | Some n => mret n
  | None => raise IndexError
  end.

(** ** Data preparation *)

(** The values of a table and its column labels (none for a bare array). *)
Definition values_of (t : table) : ndarray :=
  match t with Array a => a | Frame _ v => v end.
Definition labels_of (t : table) : list string :=
  match t with Array _ => [] | Frame cs _ => cs end.

(** Modelled from the spec: part of [split_features] below, which is not
    among the sources.  Position of the first occurrence of [name] in [cs]. *)
Fixpoint index_of (name : string) (cs : list string) : option nat :=
  match cs with
  | [] => None
  | c :: cs' => if String.eqb c name then Some 0%nat else S <$> index_of name cs'
  end.

(** Modelled from the spec: part of [split_features] below.  The position a
    column reference, a name or an index, denotes in a table of [n]
    columns. *)
Definition resolve_col (t : table) (n : nat) (c : col_ref) : outcome nat :=
  match c with
  | ColName name =>
      match index_of name (labels_of t) with
      | Some j => if (j <? n)%nat then Ok j else Raise (Raised "KeyError")
      | None => Raise (Raised "KeyError")
      end
  | ColIdx i =>
      if (0 <=? i) && (i <? Z.of_nat n) then Ok (Z.to_nat i)
      else Raise IndexError
  end.

(** Modelled from the spec: part of [split_features] below.  The positions
    of a list of column references. *)
Fixpoint resolve_cols (t : table) (n : nat) (cs : list col_ref)
  : outcome (list nat) :=
  match cs with
  | [] => Ok []
  | c :: cs' =>
      match resolve_col t n c, resolve_cols t n cs' with
      | Ok j, Ok js => Ok (j :: js)
      | Raise e, _ => Raise e
      | _, Raise e => Raise e
      end
  end.

(** Modelled from the spec: part of [split_features] below.  The cells of
    columns [js] of a matrix with [r] rows and [c] columns, row by row. *)
Definition take_columns (r c : nat) (js : list nat) (d : list cell) : list cell :=
  flat_map (λ i, omap (λ j, d !! (i * c + j)%nat) js) (seq 0 r).

(** Modelled from the spec: [split_features] of [falcon.tabular.utils] is not
    among the sources.  The spec: split into features and target using the
    explicit [features] and [target] if given, else the last column is the
    target and the rest are features; one given without the other is a
    [ConfigurationError]. *)
Definition split_features (t : table) (features : option (list col_ref))
    (target : option col_ref) : outcome (ndarray * ndarray) :=
  match shape (values_of t) with
  | [r; c] =>
      let rows := Z.to_nat r in
      let cols := Z.to_nat c in
      let d := data (values_of t) in
      match features, target with
      | None, None =>
          if (cols =? 0)%nat then Raise IndexError
          else Ok ({| shape := [r; c - 1];
                      data := take_columns rows cols (seq 0 (cols - 1)) d |},
                   {| shape := [r];
                      data := take_columns rows cols [(cols - 1)%nat] d |})
      | Some fs, Some tg =>
          match resolve_cols t cols fs, resolve_col t cols tg with
          | Ok js, Ok j =>
              Ok ({| shape := [r; Z.of_nat (length js)];
                     data := take_columns rows cols js d |},
                  {| shape := [r]; data := take_columns rows cols [j] d |})
          | Raise e, _ => Raise e
          | _, Raise e => Raise e
          end
      | _, _ => Raise ConfigurationError
      end
  | _ => Raise (Raised "ValueError")
  end.

(** [TabularTaskManager._prepare_data]; [self] enters through [self.features]
    and [self.target] only. *)
Definition _prepare_data (self_features : option (list col_ref))
    (self_target : option col_ref) (data : data_arg) (training : bool)
  : Py (ndarray * ndarray * list bool) :=
  t ← match data with
      | Path path => act (EvReadData path) ;; lift_outcome (read_data path)
      | Table t => mret t
      end;
  '(X, y) ← lift_outcome (split_features t self_features self_target);
  '(X, y) ← lift_outcome (clean_data_split X y);
  mask ← (if training then lift_outcome (get_cat_mask X) else mret []);
  let y := if ndim y =? 2 then ravel y else y in
  mret (X, y, mask).

(** ** Training *)

(** Lines 133-155 of [train]: the pre-evaluation of the score. *)
Definition pre_evaluation (self : ref) : Py Score :=
  print_ "Beginning training" ;;
  print_ "Pre-evaluation of model performance" ;;
  old_verbosity_level ← getenv_verbosity;
  set_verbosity_level 0 ;;
  m ← attrs self;
  rows ← shape_at (data_X m) 0;
  cols ← shape_at (data_X m) 1;
  small ← (if rows * cols <? 50000 then mret true
           else rows' ← shape_at (data_X m) 0; mret (rows' <? 500));
  avg_score ←
    (if small : bool then
       score ← call_tab_cv_score (_pipeline m) (data_X m) (data_y m) (task m);
       mret (np_mean score)
     else
       '(X_train, X_test, y_train, y_test) ←
         call_train_test_split (data_X m) (data_y m) 0.25;
       copied_pipeline ← deepcopy (_pipeline m);
       pipeline_fit copied_pipeline X_train y_train ;;
       pred ← pipeline_predict copied_pipeline X_test;
       call_calculate_model_score y_test pred (task m));
  set_verbosity_level old_verbosity_level ;;
  mret avg_score.

(** Lines 156-158 of [train]: the fit of the manager's own pipeline. *)
Definition main_training (self : ref) : Py unit :=
  print_ "Beginning the main training phase" ;;
  m ← attrs self;
  pipeline_fit (_pipeline m) (data_X m) (data_y m) ;;
  print_ "Finished training".

(** [TabularTaskManager.train]; [avg_score] is bound only when [pre_eval]. *)
Definition train (self : ref) (pre_eval : bool) : Py ref :=
  avg_score ← (if pre_eval then Some <$> pre_evaluation self else mret None);
  main_training self ;;
  (if pre_eval then
     match avg_score with
     | Some s => act (EvPrintScore s)
     | None => raise UnboundLocalError
     end
   else mret tt) ;;
  mret self.

(** ** Prediction and evaluation *)

(** [TabularTaskManager.predict] *)
Definition predict (self : ref) (data : data_arg) : Py ndarray :=
  t ← match data with
      | Path path => act (EvReadData path) ;; lift_outcome (read_data path)
      | Table t => mret t
      end;
  m ← attrs self;
  pipeline_predict (_pipeline m) (values_of t).

(** [TabularTaskManager.predict_train_set] *)
Definition predict_train_set (self : ref) : Py ndarray :=
  m ← attrs self;
  predict self (Table (Array (data_X m))).

(** Lines 207-210 of [evaluate]: the report function of the task is called
    and may raise like any other callee. *)
Definition print_report (task : string) (y y_hat : ndarray) : Py unit :=
  if String.eqb task "tabular_classification"
  then act (EvClassificationReport y y_hat) ;;
       lift_outcome (print_classification_report y y_hat)
  else act (EvRegressionReport y y_hat) ;;
       lift_outcome (print_regression_report y y_hat).

(** [TabularTaskManager.evaluate] *)
Definition evaluate (self : ref) (test_data : data_arg) : Py unit :=
  print "The evaluation report will be provided here" ;;
  m ← attrs self;
  '(X, y, _) ← _prepare_data (features m) (target m) test_data false;
  y_hat ← predict self (Table (Array X));
  print_report (task m) y y_hat.

(** ** Construction *)

#[local] Abbreviation options := (gmap string (optval estimator)).

(** [TabularTaskManager.default_pipeline] *)
Definition default_pipeline : pipeline_cls := SimpleTabularPipeline.

(** [TabularTaskManager.default_pipeline_options]; reads [self._data[2]]. *)
Definition default_pipeline_options (_data : ndarray * ndarray * list bool)
  : options :=
  {[ "mask" := OMask _data.2 ]}.

(** What the merge keeps for a key that both the defaults and the extra
    options have; the spec leaves it open. *)
Context (on_clash : optval estimator → optval estimator → optval estimator).

(** Modelled from the spec: the constructor of the base class [TaskManager]
    ([falcon.abstract]) is not among the sources.  The spec:
    [pipeline_options] fully overrides the defaults, [extra_pipeline_options]
    merges with the defaults, and is ignored entirely if [pipeline_options]
    is supplied. *)
Definition effective_options (defaults : options)
    (pipeline_options extra_pipeline_options : option options) : options :=
  match pipeline_options with
  | Some given => given
  | None =>
      match extra_pipeline_options with
      | Some extra => union_with (λ d e, Some (on_clash d e)) defaults extra
      | None => defaults
      end
  end.

(** Modelled from the spec: the constructor of the base class [TaskManager]
    is not among the sources.  The spec: it fails with a [ConfigurationError]
    if [features] is given without [target] or the other way round, surfaced
    immediately; it prepares the dataset, resolves the effective pipeline
    class and options, falling back to [default_pipeline] and
    [default_pipeline_options], and constructs the pipeline with them. *)
Definition TaskManager__init__ (task : string) (data : data_arg)
    (pipeline : option pipeline_cls)
    (pipeline_options extra_pipeline_options : option options)
    (features : option (list col_ref)) (target : option col_ref) : Py ref :=
  match features, target with
  | Some _, None | None, Some _ => raise ConfigurationError
  | _, _ => mret tt
  end ;;
  d ← _prepare_data features target data true;
  p ← alloc {| p_class := default default_pipeline pipeline;
               p_options := effective_options (default_pipeline_options d)
                              pipeline_options extra_pipeline_options;
               p_fitted := None |};
  alloc_manager {| task := task; features := features; target := target;
                   _data := d; _pipeline := p |}.

(** [TabularTaskManager.__init__] *)
Definition __init__ (task : string) (data : data_arg)
    (pipeline : option pipeline_cls)
    (pipeline_options extra_pipeline_options : option options)
    (features : option (list col_ref)) (target : option col_ref) : Py ref :=
  print_ ("
Initializing a new TabularTaskManager for task `" ++ task ++ "`") ;;
  TaskManager__init__ task data pipeline pipeline_options
    extra_pipeline_options features target.

(** ** The configuration tables of [configurations.py] *)

(** A configuration: the dictionary with the keys ["pipeline"] and
    ["extra_pipeline_options"]. *)
Record configuration := Configuration {
  cfg_pipeline : pipeline_cls;
  cfg_extra_pipeline_options : options
}.

Definition SUPER_LEARNER_DEFAULT_CONFIG : configuration :=
  {| cfg_pipeline := SimpleTabularPipeline;
     cfg_extra_pipeline_options :=
       {[ "learner" := OLearner SuperLearner; "learner_kwargs" := OKwargs ∅ ]} |}.

Definition OPTUNA_LEARNER_DEFAULT_CONFIG : configuration :=
  {| cfg_pipeline := SimpleTabularPipeline;
     cfg_extra_pipeline_options :=
       {[ "learner" := OLearner OptunaLearner; "learner_kwargs" := OKwargs ∅ ]} |}.

Definition PLAIN_LEARNER_DEFAULT_CONFIG : configuration :=
  {| cfg_pipeline := SimpleTabularPipeline;
     cfg_extra_pipeline_options :=
       {[ "learner" := OLearner PlainLearner; "learner_kwargs" := OKwargs ∅ ]} |}.

(** The shape shared by the tiered entries. *)
Definition with_learner (l : learner_cls) (kw : gmap string (kwarg estimator))
  : configuration :=
  {| cfg_pipeline := SimpleTabularPipeline;
     cfg_extra_pipeline_options :=
       {[ "learner" := OLearner l; "learner_kwargs" := OKwargs kw ]} |}.

Definition TABULAR_CLASSIFICATION_CONFIGURATIONS : gmap string configuration :=
  list_to_map [
    ("SuperLearner.mini", with_learner SuperLearner
       {[ "cv" := KInt 10;
          "base_estimators" :=
            KEstimators (_default_estimators "tabular_classification" "mini") ]});
    ("SuperLearner.mid", with_learner SuperLearner
       {[ "cv" := KInt 5;
          "base_estimators" :=
            KEstimators (_default_estimators "tabular_classification" "mid") ]});
    ("SuperLearner.large", with_learner SuperLearner
       {[ "cv" := KInt 3;
          "base_estimators" :=
            KEstimators (_default_estimators "tabular_classification" "large") ]});
    ("SuperLearner.xlarge", with_learner SuperLearner
       {[ "cv" := KInt 3;
          "base_estimators" :=
            KEstimators (_default_estimators "tabular_classification" "x-large") ]});
    ("OptunaLearner.hgbt", with_learner OptunaLearner
       {[ "model_class" := KModelClass HistGradientBoostingClassifier ]});
    ("PlainLearner.hgbt", with_learner PlainLearner
       {[ "model_class" := KModelClass HistGradientBoostingClassifier ]});
    ("SuperLearner", SUPER_LEARNER_DEFAULT_CONFIG);
    ("OptunaLearner", OPTUNA_LEARNER_DEFAULT_CONFIG);
    ("PlainLearner", PLAIN_LEARNER_DEFAULT_CONFIG)
  ].

Definition TABULAR_REGRESSION_CONFIGURATIONS : gmap string configuration :=
  list_to_map [
    ("SuperLearner.mini", with_learner SuperLearner
       {[ "cv" := KInt 10;
          "base_estimators" :=
            KEstimators (_default_estimators "tabular_regression" "mini") ]});
    ("SuperLearner.mid", with_learner SuperLearner
       {[ "cv" := KInt 5;
          "base_estimators" :=
            KEstimators (_default_estimators "tabular_regression" "mid") ]});
    ("SuperLearner.large", with_learner SuperLearner
       {[ "cv" := KInt 3;
          "base_estimators" :=
            KEstimators (_default_estimators "tabular_regression" "large") ]});
    ("SuperLearner.xlarge", with_learner SuperLearner
       {[ "cv" := KInt 3;
          "base_estimators" :=
            KEstimators (_default_estimators "tabular_regression" "x-large") ]});
    ("OptunaLearner.hgbt", with_learner OptunaLearner
       {[ "model_class" := KModelClass HistGradientBoostingRegressor ]});
    ("PlainLearner.hgbt", with_learner PlainLearner
       {[ "model_class" := KModelClass HistGradientBoostingRegressor ]});
    ("SuperLearner", SUPER_LEARNER_DEFAULT_CONFIG);
    ("OptunaLearner", OPTUNA_LEARNER_DEFAULT_CONFIG);
    ("PlainLearner", PLAIN_LEARNER_DEFAULT_CONFIG)
  ].

(** Modelled from the spec: the function that resolves a profile name is not
    among the sources.  The spec: a two-level mapping, task type to profile
    name to configuration; resolution is exact-string lookup and an unknown
    profile name fails with a [ConfigurationError]. *)
Definition registries : gmap string (gmap string configuration) :=
  {[ "tabular_classification" := TABULAR_CLASSIFICATION_CONFIGURATIONS;
     "tabular_regression" := TABULAR_REGRESSION_CONFIGURATIONS ]}.

Definition resolve (profile task : string) : outcome configuration :=
  match registries !! task with
  | Some registry =>
      match registry !! profile with
      | Some c => Ok c
      | None => Raise ConfigurationError
      end
  | None => Raise (Raised "KeyError")
  end.

(** The learner and the keyword arguments a configuration names. *)
Definition learner_of (c : configuration) : option learner_cls :=
  match cfg_extra_pipeline_options c !! "learner" with
  | Some (OLearner l) => Some l
  | _ => None
  end.

Definition learner_kwarg (c : configuration) (key : string)
  : option (kwarg estimator) :=
  match cfg_extra_pipeline_options c !! "learner_kwargs" with
  | Some (OKwargs kw) => kw !! key
  | _ => None
  end.
(** The tiered Super-Learner profiles: profile name, folds, tier name. *)
Definition tiered_profiles : list (string * Z * string) :=
  [("SuperLearner.mini", 10, "mini");
   ("SuperLearner.mid", 5, "mid");
   ("SuperLearner.large", 3, "large");
   ("SuperLearner.xlarge", 3, "x-large")].

(** [registry] has the profile, as a Super Learner with that many folds over
    the estimators of that tier of [task]. *)
Definition binds_tier (registry : gmap string configuration) (task : string)
    (entry : string * Z * string) : Prop :=
  let '(profile, folds, tier) := entry in
  ∃ c,
    registry !! profile = Some c ∧
    cfg_pipeline c = SimpleTabularPipeline ∧
    learner_of c = Some SuperLearner ∧
    learner_kwarg c "cv" = Some (KInt folds) ∧
    learner_kwarg c "base_estimators" =
      Some (KEstimators (_default_estimators task tier)).

(** ** Observing a run *)

(** The events a computation added, given the worlds before and after it. *)
Definition new_events (w w' : world) : list event :=
  drop (length (trace w)) (trace w').

(** The pre-evaluation test on the shape of [X]. *)
Definition cv_affordable (rows cols : Z) : bool :=
  (rows * cols <? 50000) || (rows <? 500).

(** The two ways of estimating the score, and the one a run took: its first
    call to the cross-validation scorer or to the splitter. *)
Inductive branch := CrossValidation | HeldOutSplit.

Fixpoint branch_taken (t : list event) : option branch :=
  match t with
  | [] => None
  | EvCvScore _ _ _ _ :: _ => Some CrossValidation
  | EvTrainTestSplit _ _ _ :: _ => Some HeldOutSplit
  | _ :: t' => branch_taken t'
  end.

Definition is_fit_of (p : ref) (e : event) : bool :=
  match e with EvFit q _ _ => (p =? q)%nat | _ => false end.

Definition is_score_print (e : event) : bool :=
  match e with EvPrintScore _ => true | _ => false end.

(** The levels the verbosity was set to, in order. *)
Fixpoint verbosity_changes (t : list event) : list Z :=
  match t with
  | [] => []
  | EvSetVerbosity level :: t' => level :: verbosity_changes t'
  | _ :: t' => verbosity_changes t'
  end.

Definition sets_verbosity (e : event) : bool :=
  match e with EvSetVerbosity _ => true | _ => false end.

(** A computation that reads the store and the environment and adds events,
    and changes nothing else: what it returns and what it adds do not depend
    on the events so far. *)
Definition read_only {A} (c : Py A) : Prop :=
  ∀ w : world, ∃ r t,
    ∀ t0, c (with_trace t0 w) = (r, with_trace (t0 ++ t) w).

(** What a manager [m] of the world [w] needs for [train]: it is the object
    [self], its pipeline is the object [o], and [X] is a matrix. *)
Definition trainable (w : world) (self : ref) (m : TabularTaskManager)
    (o : pipeline) (rows cols : Z) : Prop :=
  managers w !! self = Some m ∧
  heap w !! _pipeline m = Some o ∧
  shape (data_X m) = [rows; cols].

(** The log lines that open the pre-evaluation. *)
Definition pre_eval_opening : list event :=
  [EvLog "Beginning training"; EvLog "Pre-evaluation of model performance";
   EvSetVerbosity 0].
(** ** Further observations *)

(** Kinds of events. *)
Definition is_report (e : event) : bool :=
  match e with
  | EvClassificationReport _ _ | EvRegressionReport _ _ => true
  | _ => false
  end.

Definition is_predict (e : event) : bool :=
  match e with EvPredict _ _ => true | _ => false end.

(** The calls that belong to the held-out-split estimate only. *)
Definition is_split_step (e : event) : bool :=
  match e with
  | EvTrainTestSplit _ _ _ | EvDeepcopy _ _ | EvModelScore _ _ _ => true
  | _ => false
  end.

Definition is_cv_call (e : event) : bool :=
  match e with EvCvScore _ _ _ _ => true | _ => false end.

Definition is_split_request (e : event) : bool :=
  match e with EvTrainTestSplit _ _ _ => true | _ => false end.

(** A computation that leaves every manager object as it is, whether it
    returns or raises. *)
Definition keeps_managers {A} (c : Py A) : Prop :=
  ∀ w : world, managers (c w).2 = managers w.

(** The name of a learner class, as the profile names spell it. *)
Definition learner_name (l : learner_cls) : string :=
  match l with
  | SuperLearner => "SuperLearner"
  | OptunaLearner => "OptunaLearner"
  | PlainLearner => "PlainLearner"
  end.

(** The keyword arguments a learner class is given in the tables: none, or
    the folds and the base estimators for the Super Learner, or the model
    class for the other two. *)
Definition kwargs_fit_learner (l : learner_cls)
    (kw : gmap string (kwarg estimator)) : Prop :=
  kw = ∅ ∨
  match l with
  | SuperLearner =>
      ∃ folds es, kw = {[ "cv" := KInt folds; "base_estimators" := KEstimators es ]}
  | OptunaLearner | PlainLearner =>
      ∃ mc, kw = {[ "model_class" := KModelClass mc ]}
  end.

(** The shape every entry of the two tables has: the simple tabular
    pipeline, and extra options with exactly a learner, whose name opens the
    profile name, and the keyword arguments that fit it. *)
Definition profile_well_formed (name : string) (c : configuration) : Prop :=
  ∃ l kw,
    c = {| cfg_pipeline := SimpleTabularPipeline;
           cfg_extra_pipeline_options :=
             {[ "learner" := OLearner l; "learner_kwargs" := OKwargs kw ]} |} ∧
    String.prefix (learner_name l) name = true ∧
    kwargs_fit_learner l kw.

(** A configuration names nothing that belongs to another task: its model
    class, if any, is [mc] and its base estimators, if any, are a tier of
    [task]. *)
Definition profile_of_task (task : string) (mc : model_cls)
    (c : configuration) : Prop :=
  (∀ mc', learner_kwarg c "model_class" = Some (KModelClass mc') → mc' = mc) ∧
  (∀ es, learner_kwarg c "base_estimators" = Some (KEstimators es) →
         ∃ tier, es = _default_estimators task tier).

(** The nine profile names. *)
Definition profile_names : list string :=
  ["SuperLearner.mini"; "SuperLearner.mid"; "SuperLearner.large";
   "SuperLearner.xlarge"; "OptunaLearner.hgbt"; "PlainLearner.hgbt";
   "SuperLearner"; "OptunaLearner"; "PlainLearner"].
End Manager.

Arguments world {C}.
Arguments event {C}.
Arguments Py {C} A.
Arguments new_events {C} w w' : simpl never.
Arguments _prepare_data : simpl never.
Arguments pre_evaluation : simpl never.
Arguments main_training : simpl never.
Arguments train : simpl never.
Arguments predict : simpl never.
Arguments evaluate : simpl never.

(** ** Concrete collaborators and worlds

    Small stand-ins on which the model can be run: scores are integers, the
    split holds out the leading rows without shuffling, cleaning hands the
    target back as a single column, every prediction is the same label.  A [failure] names the collaborator that raises. *)
Module Sample.

Inductive failure :=
| NoFailure | ScoringFails | CopyFitFails | MaskFails | ReportFails.

(** The first [k] rows of an array, and the rows after them. *)
Definition head_rows (k : Z) (a : ndarray) : ndarray :=
  match shape a with
  | r :: rest =>
      {| shape := k :: rest;
         data := take (Z.to_nat (k * foldr Z.mul 1 rest)) (data a) |}
  | [] => a
  end.

Definition tail_rows (k : Z) (a : ndarray) : ndarray :=
  match shape a with
  | r :: rest =>
      {| shape := (r - k) :: rest;
         data := drop (Z.to_nat (k * foldr Z.mul 1 rest)) (data a) |}
  | [] => a
  end.

Definition sample_split (X y : ndarray) (test_size : Q)
  : ndarray * ndarray * ndarray * ndarray :=
  let n_test := Qceiling (test_size * inject_Z (default 0 (shape X !! 0%nat))) in
  (tail_rows n_test X, head_rows n_test X, tail_rows n_test y, head_rows n_test y).

Definition sample_collaborators (f : failure) : Collaborators := {|
  estimator := string;
  Score := Z;
  np_mean := λ l, foldr Z.add 0 l `div` Z.of_nat (length l);
  train_test_split := λ g X y t, Ok (sample_split X y t);
  read_data := λ path, Raise (Raised "FileNotFoundError");
  clean_data_split := λ X y, Ok (X, {| shape := shape y ++ [1]; data := data y |});
  get_cat_mask := λ X,
    match f with
    | MaskFails => Raise (Raised "TypeError")
    | _ => Ok (replicate (Z.to_nat (default 0 (shape X !! 1%nat))) false)
    end;
  tab_cv_score := λ o X y task,
    (match f with ScoringFails => Raise (Raised "FitFailure") | _ => Ok [80; 90] end, o);
  calculate_model_score := λ y pred task, Ok 75;
  print_classification_report := λ y y_hat,
    match f with ReportFails => Raise (Raised "ValueError") | _ => Ok tt end;
  print_regression_report := λ y y_hat,
    match f with ReportFails => Raise (Raised "ValueError") | _ => Ok tt end;
  fit_raises := λ o X y,
    match f, p_fitted o with
    | CopyFitFails, None => Some (Raised "FitFailure")
    | _, _ => None
    end;
  predict_with := λ o X,
    Ok {| shape := take 1 (shape X);
          data := replicate (Z.to_nat (default 0 (shape X !! 0%nat))) (Num 1) |};
  _default_estimators := λ task tier, [task +:+ "/" +:+ tier]
|}.

(** A matrix of the given shape filled with zeros. *)
Definition zeros (rows cols : Z) : ndarray :=
  {| shape := [rows; cols]; data := replicate (Z.to_nat (rows * cols)) (Num 0) |}.

(** A manager for [task] over a [rows] by [cols] feature matrix, with an
    unfit pipeline, as the constructor leaves it. *)
Definition sample_manager (task : string) (rows cols : Z) : TabularTaskManager :=
  {| task := task; features := None; target := None;
     _data := (zeros rows cols,
               {| shape := [rows]; data := replicate (Z.to_nat rows) (Num 1) |},
               replicate (Z.to_nat cols) false);
     _pipeline := 0%nat |}.

(** The unfit pipeline of a manager over [cols] feature columns. *)
Definition sample_pipeline (f : failure) (cols : Z)
  : pipeline_obj (@estimator (sample_collaborators f)) :=
  {| p_class := SimpleTabularPipeline;
     p_options := {[ "mask" := OMask (replicate (Z.to_nat cols) false) ]};
     p_fitted := None |}.

Definition sample_world (f : failure) (task : string) (rows cols : Z)
  : @world (sample_collaborators f) :=
  {| verbosity := None;
     heap := [sample_pipeline f cols];
     managers := [sample_manager task rows cols];
     rng := 0%N;
     trace := [] |}.

(** A classification task on 400 rows of 3 features, one on 500 rows of 100
    features, and the first of them with a scorer that raises. *)
Definition small_manager : TabularTaskManager :=
  sample_manager "tabular_classification" 400 3.
Definition small_world : @world (sample_collaborators NoFailure) :=
  sample_world NoFailure "tabular_classification" 400 3.
Definition large_manager : TabularTaskManager :=
  sample_manager "tabular_classification" 500 100.
Definition large_world : @world (sample_collaborators NoFailure) :=
  sample_world NoFailure "tabular_classification" 500 100.
Definition failing_world : @world (sample_collaborators ScoringFails) :=
  sample_world ScoringFails "tabular_classification" 400 3.

(** The first of them again, with a mask detection that raises and with
    report functions that raise. *)
Definition maskless_world : @world (sample_collaborators MaskFails) :=
  sample_world MaskFails "tabular_classification" 400 3.
Definition reportless_world : @world (sample_collaborators ReportFails) :=
  sample_world ReportFails "tabular_classification" 400 3.


(** A three-by-three table whose last column is the target. *)
Definition sample_table : table :=
  Frame ["a"; "b"; "label"]
    {| shape := [3; 3];
       data := [Num 1; Num 2; Str "x";
                Num 3; Num 4; Str "y";
                Num 5; Num 6; Str "x"] |}.


(** The features and the target of [sample_table] under the default split. *)
Definition sample_features : ndarray :=
  {| shape := [3; 2]; data := [Num 1; Num 2; Num 3; Num 4; Num 5; Num 6] |}.
Definition sample_target : ndarray :=
  {| shape := [3]; data := [Str "x"; Str "y"; Str "x"] |}.
Definition sample_target_column : ndarray :=
  {| shape := [3; 1]; data := [Str "x"; Str "y"; Str "x"] |}.

(** Extra options that name a learner. *)
Definition sample_extra
  : gmap string (optval (@estimator (sample_collaborators NoFailure))) :=
  {[ "learner" := OLearner PlainLearner; "learner_kwargs" := OKwargs ∅ ]}.

End Sample.

(** * Properties *)

Section Properties.
Context `{C : Collaborators}.

#[local] Abbreviation pipeline := (pipeline_obj estimator).

(** ** Running computations *)

Lemma bind_run {A B} (m : Py A) (f : A → Py B) (w : world) :
  (m ≫= f) w =
  match m w with
  | (Ok a, w') => f a w'
  | (Raise e, w') => (Raise e, w')
  end.
Proof. reflexivity. Qed.

Lemma fmap_run {A B} (f : A → B) (m : Py A) (w : world) :
  (f <$> m) w =
  match m w with
  | (Ok a, w') => (Ok (f a), w')
  | (Raise e, w') => (Raise e, w')
  end.
Proof. reflexivity. Qed.

(** Run the next statement of a computation. *)
Ltac step := first [rewrite bind_run | rewrite fmap_run]; cbn.
Ltac run := cbn; repeat step.

(** Two runs with the same result agree when their worlds agree field by
    field. *)
Lemma same_run {A} (r : outcome A) (w1 w2 : world) :
  verbosity w1 = verbosity w2 →
  heap w1 = heap w2 →
  managers w1 = managers w2 →
  rng w1 = rng w2 →
  trace w1 = trace w2 →
  (r, w1) = (r, w2).
Proof. destruct w1, w2. cbn. by intros -> -> -> -> ->. Qed.

(** Close a goal that equates two descriptions of one run. *)
Ltac same_world :=
  cbn; apply same_run; cbn; rewrite <- ?app_assoc; reflexivity.

Lemma lookup_fresh {A} (l : list A) (x : A) : (l ++ [x]) !! length l = Some x.
Proof. by rewrite lookup_app_r, Nat.sub_diag. Qed.

Lemma insert_fresh {A} (l : list A) (x x' : A) :
  <[length l := x']> (l ++ [x]) = l ++ [x'].
Proof.
  rewrite insert_app_r_alt, Nat.sub_diag by done. reflexivity.
Qed.

Lemma run_pipeline_fit p X y (w : world) o :
  heap w !! p = Some o →
  pipeline_fit p X y w =
  match fit_raises o X y with
  | Some e => (Raise e, emit (EvFit p X y) w)
  | None =>
      (Ok tt,
       with_heap (<[p := mark_fitted X y o]> (heap w)) (emit (EvFit p X y) w))
  end.
Proof.
  intros Ho. unfold pipeline_fit, deref. run. rewrite Ho.
  by destruct (fit_raises o X y).
Qed.

Lemma run_pipeline_predict p X (w : world) o :
  heap w !! p = Some o →
  pipeline_predict p X w = (predict_with o X, emit (EvPredict p X) w).
Proof.
  intros Ho. unfold pipeline_predict, deref. run.
  by rewrite Ho.
Qed.

Lemma run_deepcopy p (w : world) o :
  heap w !! p = Some o →
  deepcopy p w =
  (Ok (length (heap w)),
   emit (EvDeepcopy p (length (heap w))) (with_heap (heap w ++ [o]) w)).
Proof. intros Ho. unfold deepcopy, deref. run. by rewrite Ho. Qed.

Lemma run_call_tab_cv_score p X y task (w : world) o :
  heap w !! p = Some o →
  call_tab_cv_score p X y task w =
  ((tab_cv_score o X y task).1,
   with_heap (<[p := (tab_cv_score o X y task).2]> (heap w))
     (emit (EvCvScore p X y task) w)).
Proof.
  intros Ho. unfold call_tab_cv_score, deref. run.
  rewrite Ho. by destruct (tab_cv_score o X y task) as [[] ?].
Qed.

Lemma run_attrs self (w : world) m :
  managers w !! self = Some m → attrs self w = (Ok m, w).
Proof. intros Hm. unfold attrs. by rewrite Hm. Qed.

(** The test of lines 139-142 computes [cv_affordable] of the shape. *)
Lemma run_shape_test rows cols (w : world) :
  (if rows * cols <? 50000 then mret true
   else rows' ← mret rows; mret (rows' <? 500) : Py bool) w =
  (Ok (cv_affordable rows cols), w).
Proof. unfold cv_affordable. by destruct (rows * cols <? 50000). Qed.

(** The pre-evaluation on a small dataset, step by step. *)
Lemma run_pre_evaluation_cv (w : world) self m o rows cols :
  trainable w self m o rows cols →
  cv_affordable rows cols = true →
  pre_evaluation self w =
  let t := trace w ++ pre_eval_opening ++
           [EvCvScore (_pipeline m) (data_X m) (data_y m) (task m)] in
  let h := <[_pipeline m := (tab_cv_score o (data_X m) (data_y m) (task m)).2]>
             (heap w) in
  match (tab_cv_score o (data_X m) (data_y m) (task m)).1 with
  | Ok score =>
      (Ok (np_mean score),
       {| verbosity := Some (verbosity_level w); heap := h;
          managers := managers w; rng := rng w;
          trace := t ++ [EvSetVerbosity (verbosity_level w)] |})
  | Raise e =>
      (Raise e,
       {| verbosity := Some 0; heap := h; managers := managers w;
          rng := rng w; trace := t |})
  end.
Proof.
  intros (Hm & Ho & Hs) Hsmall. unfold pre_evaluation.
  run. rewrite (run_attrs _ _ m) by done.
  unfold shape_at. rewrite Hs. run.
  rewrite run_shape_test, Hsmall. run.
  erewrite run_call_tab_cv_score by done.
  destruct (tab_cv_score o _ _ _) as [[score|e] o']; run; same_world.
Qed.

(** The pre-evaluation on a large dataset, step by step. *)
Lemma run_pre_evaluation_split (w : world) self m o rows cols :
  trainable w self m o rows cols →
  cv_affordable rows cols = false →
  pre_evaluation self w =
  let p := _pipeline m in
  let copied := length (heap w) in
  let silent h t :=
    {| verbosity := Some 0; heap := h; managers := managers w;
       rng := N.succ (rng w); trace := t |} in
  let t1 := trace w ++ pre_eval_opening ++
            [EvTrainTestSplit (data_X m) (data_y m) 0.25] in
  match train_test_split (rng w) (data_X m) (data_y m) 0.25 with
  | Raise e => (Raise e, silent (heap w) t1)
  | Ok (X_train, X_test, y_train, y_test) =>
      let t2 := t1 ++ [EvDeepcopy p copied; EvFit copied X_train y_train] in
      match fit_raises o X_train y_train with
      | Some e => (Raise e, silent (heap w ++ [o]) t2)
      | None =>
          let o' := mark_fitted X_train y_train o in
          let t3 := t2 ++ [EvPredict copied X_test] in
          match predict_with o' X_test with
          | Raise e => (Raise e, silent (heap w ++ [o']) t3)
          | Ok pred =>
              let t4 := t3 ++ [EvModelScore y_test pred (task m)] in
              match calculate_model_score y_test pred (task m) with
              | Raise e => (Raise e, silent (heap w ++ [o']) t4)
              | Ok s =>
                  (Ok s,
                   {| verbosity := Some (verbosity_level w);
                      heap := heap w ++ [o']; managers := managers w;
                      rng := N.succ (rng w);
                      trace := t4 ++ [EvSetVerbosity (verbosity_level w)] |})
              end
          end
      end
  end.
Proof.
  intros (Hm & Ho & Hs) Hlarge. unfold pre_evaluation.
  run. rewrite (run_attrs _ _ m) by done.
  unfold shape_at. rewrite Hs. run.
  rewrite run_shape_test, Hlarge. run.
  unfold call_train_test_split. run.
  destruct (train_test_split _ _ _ _) as [[[[X_train X_test] y_train] y_test]|e];
    run; [|same_world].
  erewrite run_deepcopy by done. run.
  erewrite run_pipeline_fit by apply lookup_fresh.
  destruct (fit_raises o X_train y_train) as [e|]; run; [same_world|].
  rewrite insert_fresh.
  erewrite run_pipeline_predict by apply lookup_fresh.
  destruct (predict_with _ X_test) as [pred|e]; run; [|same_world].
  unfold call_calculate_model_score. run.
  destruct (calculate_model_score _ _ _) as [s|e]; run; same_world.
Qed.

(** The main training phase, step by step. *)
Lemma run_main_training (w : world) self m o :
  managers w !! self = Some m →
  heap w !! _pipeline m = Some o →
  main_training self w =
  let t := trace w ++ [EvLog "Beginning the main training phase";
                       EvFit (_pipeline m) (data_X m) (data_y m)] in
  match fit_raises o (data_X m) (data_y m) with
  | Some e =>
      (Raise e,
       {| verbosity := verbosity w; heap := heap w; managers := managers w;
          rng := rng w; trace := t |})
  | None =>
      (Ok tt,
       {| verbosity := verbosity w;
          heap := <[_pipeline m := mark_fitted (data_X m) (data_y m) o]> (heap w);
          managers := managers w; rng := rng w;
          trace := t ++ [EvLog "Finished training"] |})
  end.
Proof.
  intros Hm Ho. unfold main_training. run.
  rewrite (run_attrs _ _ m) by done. run.
  erewrite run_pipeline_fit by done.
  destruct (fit_raises o _ _); run; same_world.
Qed.

(** [train] is the pre-evaluation, if asked for, then the main training
    phase, then the printed score. *)
Lemma run_train self pre_eval (w : world) :
  train self pre_eval w =
  if pre_eval then
    match pre_evaluation self w with
    | (Ok s, w1) =>
        match main_training self w1 with
        | (Ok _, w2) => (Ok self, emit (EvPrintScore s) w2)
        | (Raise e, w2) => (Raise e, w2)
        end
    | (Raise e, w1) => (Raise e, w1)
    end
  else
    match main_training self w with
    | (Ok _, w2) => (Ok self, w2)
    | (Raise e, w2) => (Raise e, w2)
    end.
Proof.
  unfold train. destruct pre_eval; run.
  - destruct (pre_evaluation self w) as [[s|e] w1]; run; [|done].
    by destruct (main_training self w1) as [[[]|e] w2].
  - by destruct (main_training self w) as [[[]|e] w2].
Qed.

Lemma new_events_of (w w' : world) t :
  trace w' = trace w ++ t → new_events w w' = t.
Proof. intros Ht. unfold new_events. by rewrite Ht, drop_app_length. Qed.

(** Compute the events added by a run whose trace is known. *)
Ltac new_events :=
  erewrite !new_events_of by (cbn; rewrite <- ?app_assoc; reflexivity).

(** Compute the events added by a run that may have added none. *)
Ltac events_added :=
  erewrite !new_events_of
    by (cbn; first [rewrite <- ?app_assoc; reflexivity
                   |symmetry; apply app_nil_r]).

Lemma cv_affordable_spec rows cols :
  cv_affordable rows cols = true ↔ rows * cols < 50000 ∨ rows < 500.
Proof. unfold cv_affordable. rewrite orb_true_iff, !Z.ltb_lt. done. Qed.

Lemma cv_affordable_false rows cols :
  cv_affordable rows cols = false ↔ 50000 ≤ rows * cols ∧ 500 ≤ rows.
Proof. unfold cv_affordable. rewrite orb_false_iff, !Z.ltb_ge. done. Qed.

(** The main training phase only adds events. *)
Lemma main_training_trace self (w : world) m o :
  managers w !! self = Some m →
  heap w !! _pipeline m = Some o →
  ∃ t, trace (main_training self w).2 = trace w ++ t.
Proof.
  intros Hm Ho. rewrite (run_main_training _ _ m o) by done.
  cbn. destruct (fit_raises o _ _); cbn; rewrite <- ?app_assoc; eauto.
Qed.

(** The events of the pre-evaluation: the opening, the first call of the
    branch taken, and what follows it. *)
Lemma pre_evaluation_first_call (w : world) self m o rows cols :
  trainable w self m o rows cols →
  ∃ rest,
    trace (pre_evaluation self w).2 =
    trace w ++ pre_eval_opening ++
    (if cv_affordable rows cols
     then EvCvScore (_pipeline m) (data_X m) (data_y m) (task m)
     else EvTrainTestSplit (data_X m) (data_y m) 0.25) :: rest.
Proof.
  intros Ht. destruct (cv_affordable rows cols) eqn:Hcv.
  - rewrite (run_pre_evaluation_cv _ _ m o rows cols) by done. cbn.
    destruct (tab_cv_score o _ _ _).1; cbn; rewrite <- ?app_assoc; cbn; eauto.
  - rewrite (run_pre_evaluation_split _ _ m o rows cols) by done. cbn.
    repeat case_match; cbn; rewrite <- ?app_assoc; cbn; eauto.
Qed.

(** The pre-evaluation leaves the managers alone and the manager's pipeline
    in the store; on a large dataset it leaves that pipeline as it was. *)
Lemma pre_evaluation_frame (w : world) self m o rows cols :
  trainable w self m o rows cols →
  managers (pre_evaluation self w).2 = managers w ∧
  ∃ o1, heap (pre_evaluation self w).2 !! _pipeline m = Some o1 ∧
        (cv_affordable rows cols = false → o1 = o).
Proof.
  intros Ht. pose proof Ht as (Hm & Ho & Hs).
  destruct (cv_affordable rows cols) eqn:Hcv.
  - rewrite (run_pre_evaluation_cv _ _ m o rows cols) by done. cbn.
    destruct (tab_cv_score o _ _ _) as [[score|e] o']; cbn; (split; [done|]);
      exists o'; (split; [|done]);
      apply list_lookup_insert_eq; by eapply lookup_lt_Some.
  - rewrite (run_pre_evaluation_split _ _ m o rows cols) by done. cbn.
    repeat case_match; cbn; (split; [done|]); exists o; (split; [|done]);
      try done; by apply lookup_app_l_Some.
Qed.

(** The events of [train] start with those of its pre-evaluation. *)
Lemma train_trace (w : world) self m o rows cols :
  trainable w self m o rows cols →
  ∃ t, trace (train self true w).2 = trace (pre_evaluation self w).2 ++ t.
Proof.
  intros Ht. pose proof Ht as (Hm & Ho & Hs).
  destruct (pre_evaluation_frame w self m o rows cols Ht)
    as (Hms & o1 & Ho1 & _).
  rewrite run_train.
  destruct (pre_evaluation self w) as [[s|e] w1] eqn:Hpre; cbn in *.
  - destruct (main_training_trace self w1 m o1) as [t Hmain];
      [by rewrite Hms|done|].
    destruct (main_training self w1) as [[[]|e] w2]; cbn in *.
    + exists (t ++ [EvPrintScore s]). by rewrite Hmain, <- app_assoc.
    + by exists t.
  - exists []. by rewrite app_nil_r.
Qed.

(** C1. For a prepared training dataset whose feature matrix has [rows] rows
    and [cols] columns, [train(pre_eval=True)] picks the pre-evaluation branch
    from the shape alone: after the opening its first call is the
    cross-validation scorer on the manager's own pipeline when
    [rows * cols < 50000] or [rows < 500], and the 25% split otherwise; on
    the cross-validation branch the estimate is the mean of the scores that
    call returns; any other trainable manager with a matrix of the same shape
    takes the same branch. *)
Theorem train_pre_eval_branch_by_shape (w : world) self m o rows cols :
  trainable w self m o rows cols →
  let w' := world_after (train self true) w in
  (cv_affordable rows cols = true ↔ rows * cols < 50000 ∨ rows < 500) ∧
  (∃ rest,
     new_events w w' =
     pre_eval_opening ++
     (if cv_affordable rows cols
      then EvCvScore (_pipeline m) (data_X m) (data_y m) (task m)
      else EvTrainTestSplit (data_X m) (data_y m) 0.25) :: rest) ∧
  branch_taken (new_events w w') =
    Some (if cv_affordable rows cols then CrossValidation else HeldOutSplit) ∧
  (cv_affordable rows cols = true →
   result_of (pre_evaluation self) w =
   match (tab_cv_score o (data_X m) (data_y m) (task m)).1 with
   | Ok score => Ok (np_mean score)
   | Raise e => Raise e
   end) ∧
  (∀ (w2 : world) self2 m2 o2,
     trainable w2 self2 m2 o2 rows cols →
     branch_taken (new_events w2 (world_after (train self2 true) w2)) =
     branch_taken (new_events w w')).
Proof.
  intros Ht w'.
  assert (Hnew : ∀ (v : world) self' m' o',
    trainable v self' m' o' rows cols →
    ∃ rest,
      new_events v (world_after (train self' true) v) =
      pre_eval_opening ++
      (if cv_affordable rows cols
       then EvCvScore (_pipeline m') (data_X m') (data_y m') (task m')
       else EvTrainTestSplit (data_X m') (data_y m') 0.25) :: rest).
  { intros v self' m' o' Hv.
    destruct (train_trace v self' m' o' rows cols Hv) as [t Htr].
    destruct (pre_evaluation_first_call v self' m' o' rows cols Hv)
      as [rest Hpre].
    exists (rest ++ t). unfold new_events, world_after.
    rewrite Htr, Hpre, <- !app_assoc, drop_app_length.
    by rewrite <- app_comm_cons. }
  assert (Hbranch : ∀ (v : world) self' m' o',
    trainable v self' m' o' rows cols →
    branch_taken (new_events v (world_after (train self' true) v)) =
    Some (if cv_affordable rows cols then CrossValidation else HeldOutSplit)).
  { intros v self' m' o' Hv. destruct (Hnew v self' m' o' Hv) as [rest ->].
    by destruct (cv_affordable rows cols). }
  split; [apply cv_affordable_spec|].
  split; [by eapply Hnew|].
  split; [by eapply Hbranch|].
  split.
  - intros Hcv. unfold result_of.
    rewrite (run_pre_evaluation_cv _ _ m o rows cols) by done. cbn.
    by destruct (tab_cv_score o _ _ _).1.
  - intros v self' m' o' Hv. subst w'.
    rewrite (Hbranch v self' m' o' Hv). symmetry. by eapply Hbranch.
Qed.

(** C2, as the code has it. With [pre_eval=True] the verbosity level is set
    to 0 before the first call of the pre-evaluation and is not set again
    while the pre-evaluation calls its collaborators.  When the
    pre-evaluation completes, its last action sets the level back to the one
    read before, and that level is in force when [train] returns.  When the
    scoring, the split, the fit or the prediction of the copy raises, the
    exception leaves the pre-evaluation with the level still at 0. *)
Theorem pre_evaluation_verbosity (w : world) self m o rows cols :
  trainable w self m o rows cols →
  let w1 := world_after (pre_evaluation self) w in
  let completed :=
    match result_of (pre_evaluation self) w with
    | Ok _ => true
    | Raise _ => false
    end in
  (∃ calls,
     new_events w w1 =
     pre_eval_opening ++ calls ++
     (if completed then [EvSetVerbosity (verbosity_level w)] else []) ∧
     verbosity_changes calls = []) ∧
  verbosity w1 = Some (if completed then verbosity_level w else 0) ∧
  (returns (train self true) w = true →
   verbosity (world_after (train self true) w) = Some (verbosity_level w)).
Proof.
  intros Ht w1 completed. pose proof Ht as (Hm & Ho & Hs).
  assert (Hpre :
    (∃ calls,
       new_events w w1 =
       pre_eval_opening ++ calls ++
       (if completed then [EvSetVerbosity (verbosity_level w)] else []) ∧
       verbosity_changes calls = []) ∧
    verbosity w1 = Some (if completed then verbosity_level w else 0)).
  { subst w1 completed. unfold world_after, result_of.
    destruct (cv_affordable rows cols) eqn:Hcv.
    - rewrite (run_pre_evaluation_cv _ _ m o rows cols) by done. cbn.
      destruct (tab_cv_score o _ _ _).1; cbn; (split; [|done]);
        exists [EvCvScore (_pipeline m) (data_X m) (data_y m) (task m)];
        new_events; done.
    - rewrite (run_pre_evaluation_split _ _ m o rows cols) by done. cbn.
      repeat case_match; cbn; (split; [|done]);
        match goal with
        | |- context [new_events ?a ?b] =>
            exists (List.filter (λ e, negb (sets_verbosity e))
                      (drop 3 (new_events a b)))
        end; new_events; done. }
  split; [apply Hpre|]. split; [apply Hpre|].
  destruct (pre_evaluation_frame w self m o rows cols Ht)
    as (Hms & o1 & Ho1 & _).
  destruct Hpre as [_ Hv]. subst w1 completed.
  unfold returns, result_of, world_after in *. rewrite run_train.
  destruct (pre_evaluation self w) as [[s|e] w1]; cbn in *; [|done].
  rewrite (run_main_training w1 self m o1) by (by rewrite ?Hms).
  by destruct (fit_raises o1 _ _).
Qed.

(** C3. On a dataset with at least 500 rows and at least 50000 cells the
    pre-evaluation takes the split branch.  Whatever its collaborators do,
    it never calls [fit] on the manager's own pipeline, which is the same
    unfit object when the pre-evaluation ends.  When the collaborators
    return, a deep copy, a new object, is fitted on the training part of the
    25% split and predicts on the held-out part; the next events of [train]
    are the log line of the main phase and the fit of the manager's own
    pipeline on the full data. *)
Theorem train_split_branch_keeps_primary_unfit (w : world) self m o rows cols :
  trainable w self m o rows cols →
  500 ≤ rows →
  50000 ≤ rows * cols →
  is_fitted o = false →
  let p := _pipeline m in
  let copied := length (heap w) in
  let w1 := world_after (pre_evaluation self) w in
  let w' := world_after (train self true) w in
  (∃ rest,
     new_events w w1 =
     pre_eval_opening ++ EvTrainTestSplit (data_X m) (data_y m) 0.25 :: rest) ∧
  Forall (λ e, is_fit_of p e = false) (new_events w w1) ∧
  heap w1 !! p = Some o ∧
  is_fitted <$> heap w1 !! p = Some false ∧
  copied ≠ p ∧
  (∀ X_train X_test y_train y_test pred s,
     train_test_split (rng w) (data_X m) (data_y m) 0.25 =
       Ok (X_train, X_test, y_train, y_test) →
     fit_raises o X_train y_train = None →
     predict_with (mark_fitted X_train y_train o) X_test = Ok pred →
     calculate_model_score y_test pred (task m) = Ok s →
     new_events w w1 =
       pre_eval_opening ++
       [EvTrainTestSplit (data_X m) (data_y m) 0.25;
        EvDeepcopy p copied;
        EvFit copied X_train y_train;
        EvPredict copied X_test;
        EvModelScore y_test pred (task m);
        EvSetVerbosity (verbosity_level w)] ∧
     heap w1 = heap w ++ [mark_fitted X_train y_train o] ∧
     ∃ rest,
       new_events w1 w' =
       EvLog "Beginning the main training phase" ::
       EvFit p (data_X m) (data_y m) :: rest).
Proof.
  intros Ht Hrows Hcells Hunfit p copied w1 w'.
  pose proof Ht as (Hm & Ho & Hs).
  assert (Hcv : cv_affordable rows cols = false)
    by by apply cv_affordable_false.
  assert (Hne : copied ≠ p).
  { subst copied p. apply lookup_lt_Some in Ho. lia. }
  assert (Hneb : (p =? copied)%nat = false) by (apply Nat.eqb_neq; lia).
  pose proof (run_pre_evaluation_split w self m o rows cols Ht Hcv) as Hpre.
  cbn zeta in Hpre. fold p copied in Hpre.
  subst w1 w'. unfold world_after.
  repeat apply conj.
  - destruct (pre_evaluation_first_call w self m o rows cols Ht)
      as [rest Hrest].
    rewrite Hcv in Hrest. exists rest. by apply new_events_of.
  - rewrite Hpre. clear Hpre. repeat case_match; cbn; new_events;
      repeat constructor; cbn; by rewrite ?Hneb.
  - rewrite Hpre. clear Hpre. repeat case_match; cbn; try done;
      by apply lookup_app_l_Some.
  - replace (heap (pre_evaluation self w).2 !! p) with (Some o);
      [by rewrite <- Hunfit|].
    rewrite Hpre. clear Hpre. repeat case_match; cbn; try done;
      symmetry; by apply lookup_app_l_Some.
  - done.
  - intros X_train X_test y_train y_test pred s Hsplit Hfit Hpred Hscore.
    rewrite Hsplit, Hfit, Hpred, Hscore in Hpre.
    rewrite run_train, Hpre. cbn.
    repeat apply conj.
    + new_events. done.
    + done.
    + erewrite run_main_training; [|done|by apply lookup_app_l_Some].
      cbn. destruct (fit_raises o (data_X m) (data_y m)); cbn;
        new_events; eauto.
Qed.

(** C6. Whatever [pre_eval] is, a call of [train] that returns has returned
    [self] after the main training phase: the log line, the fit of the
    manager's own pipeline on the full prepared [(X, y)], which leaves that
    pipeline fitted on them, and the closing log line; the score is printed
    after them exactly when [pre_eval] is true.  The call does return when
    the pre-evaluation, if asked for, completes and that fit does not
    raise. *)
Theorem train_fits_full_data_and_returns_self
    (pre_eval : bool) (w : world) self m o rows cols :
  trainable w self m o rows cols →
  let p := _pipeline m in
  let w1 := if pre_eval then world_after (pre_evaluation self) w else w in
  let w' := world_after (train self pre_eval) w in
  (∃ o1,
     heap w1 !! p = Some o1 ∧
     returns (train self pre_eval) w =
     (if pre_eval then returns (pre_evaluation self) w else true) &&
     match fit_raises o1 (data_X m) (data_y m) with
     | Some _ => false
     | None => true
     end) ∧
  (∀ r,
     result_of (train self pre_eval) w = Ok r →
     r = self ∧
     (∃ o1,
        heap w1 !! p = Some o1 ∧
        heap w' = <[p := mark_fitted (data_X m) (data_y m) o1]> (heap w1)) ∧
     p_fitted <$> heap w' !! p = Some (Some (data_X m, data_y m)) ∧
     new_events w1 w' =
       [EvLog "Beginning the main training phase";
        EvFit p (data_X m) (data_y m);
        EvLog "Finished training"] ++
       (if pre_eval then
          match result_of (pre_evaluation self) w with
          | Ok s => [EvPrintScore s]
          | Raise _ => []
          end
        else []) ∧
     (existsb is_score_print (new_events w w') = pre_eval)).
Proof.
  intros Ht p w1 w'. pose proof Ht as (Hm & Ho & Hs).
  assert (Hlt : (p < length (heap w))%nat) by by eapply lookup_lt_Some.
  destruct pre_eval.
  - destruct (pre_evaluation_frame w self m o rows cols Ht)
      as (Hms & o1 & Ho1 & _).
    assert (Hlt1 : (p < length (heap w1))%nat) by by eapply lookup_lt_Some.
    destruct (pre_evaluation_first_call w self m o rows cols Ht)
      as [rest Hrest].
    remember (pre_eval_opening ++ _ :: rest) as t eqn:Et in Hrest. clear Et.
    subst w1 w'. unfold returns, result_of, world_after in *.
    rewrite run_train.
    destruct (pre_evaluation self w) as [[s|e] w1] eqn:Hpre; cbn in *.
    2:{ split; [by exists o1|]. intros r [=]. }
    rewrite (run_main_training w1 self m o1) by (by rewrite ?Hms).
    fold p. split; [exists o1; split; [done|]; by destruct (fit_raises o1 _ _)|].
    destruct (fit_raises o1 _ _); cbn; intros r [= <-].
    repeat apply conj; try done.
    + by exists o1.
    + by rewrite list_lookup_insert_eq.
    + by new_events.
    + erewrite (new_events_of w _ (t ++ _))
        by (cbn; rewrite Hrest, <- ?app_assoc; reflexivity).
      rewrite existsb_app. cbn. by rewrite orb_true_r.
  - subst w1 w'. unfold returns, result_of, world_after.
    rewrite run_train, (run_main_training w self m o) by done. fold p.
    split; [exists o; split; [done|]; by destruct (fit_raises o _ _)|].
    destruct (fit_raises o _ _); cbn; intros r [= <-].
    repeat apply conj; try done.
    + by exists o.
    + by rewrite list_lookup_insert_eq.
    + by new_events.
    + by new_events.
Qed.

(** ** Computations that only read and report *)

Lemma with_trace_id (w : world) : with_trace (trace w) w = w.
Proof. by destruct w. Qed.

Lemma read_only_ret {A} (a : A) : read_only (mret a).
Proof. intros w. exists (Ok a), []. intros t0. by rewrite app_nil_r. Qed.

Lemma read_only_raise {A} e : read_only (raise e : Py A).
Proof. intros w. exists (Raise e), []. intros t0. by rewrite app_nil_r. Qed.

Lemma read_only_lift {A} (o : outcome A) : read_only (lift_outcome o).
Proof. intros w. exists o, []. intros t0. by rewrite app_nil_r. Qed.

Lemma read_only_act e : read_only (act e).
Proof. intros w. by exists (Ok tt), [e]. Qed.

Lemma read_only_attrs self : read_only (attrs self).
Proof.
  intros w. unfold attrs. cbn.
  destruct (managers w !! self) as [m|]; eexists _, [];
    intros t0; by rewrite app_nil_r.
Qed.

Lemma read_only_deref p : read_only (deref p).
Proof.
  intros w. unfold deref. cbn.
  destruct (heap w !! p) as [o|]; eexists _, [];
    intros t0; by rewrite app_nil_r.
Qed.

Lemma read_only_bind {A B} (c : Py A) (k : A → Py B) :
  read_only c → (∀ a, read_only (k a)) → read_only (c ≫= k).
Proof.
  intros Hc Hk w. destruct (Hc w) as (r & t & Hrun).
  destruct r as [a|e].
  - destruct (Hk a w) as (r' & t' & Hrun').
    exists r', (t ++ t'). intros t0.
    by rewrite bind_run, Hrun, Hrun', app_assoc.
  - exists (Raise e), t. intros t0. by rewrite bind_run, Hrun.
Qed.

Create HintDb read_only.
#[local] Hint Resolve read_only_ret read_only_raise read_only_lift
  read_only_act read_only_attrs read_only_deref : read_only.

(** Decompose a computation along its binds and branches. *)
Ltac read_only :=
  repeat first
    [ apply read_only_bind; [|intros]
    | progress eauto with read_only
    | match goal with
      | |- read_only (match ?x with _ => _ end) => destruct x
      | |- read_only (let '(_, _) := ?x in _) => destruct x
      end ].

Lemma read_only_prepare_data fs tg d training :
  read_only (_prepare_data fs tg d training).
Proof. unfold _prepare_data. read_only. Qed.

Lemma read_only_predict self d : read_only (predict self d).
Proof. unfold predict, pipeline_predict. read_only. Qed.

Lemma read_only_evaluate self d : read_only (evaluate self d).
Proof. unfold evaluate, print, print_report. read_only. Qed.

(** What a read-only computation leaves behind, and what it does when run
    again from there. *)
Lemma read_only_twice {A} (c : Py A) (w : world) :
  read_only c →
  let w1 := world_after c w in
  managers w1 = managers w ∧ heap w1 = heap w ∧
  verbosity w1 = verbosity w ∧ rng w1 = rng w ∧
  result_of c w1 = result_of c w ∧
  new_events w1 (world_after c w1) = new_events w w1.
Proof.
  intros Hc w1. destruct (Hc w) as (r & t & Hrun).
  assert (Hrun0 : c w = (r, with_trace (trace w ++ t) w)).
  { specialize (Hrun (trace w)). by rewrite with_trace_id in Hrun. }
  assert (Hw1 : w1 = with_trace (trace w ++ t) w).
  { subst w1. unfold world_after. by rewrite Hrun0. }
  assert (Hrun1 : c w1 = (r, with_trace ((trace w ++ t) ++ t) w)).
  { by rewrite Hw1, Hrun. }
  unfold result_of, world_after. rewrite Hrun1, Hrun0, Hw1. cbn.
  repeat apply conj; try done.
  by rewrite !(new_events_of _ _ t).
Qed.

(** ** Data preparation and evaluation *)

(** The table a [data] argument stands for, and the world once it is
    loaded. *)
Lemma run_prepare_data fs tg d (training : bool) (w : world)
    t X0 y0 X1 y1 mask :
  match d with Path path => read_data path | Table t' => Ok t' end = Ok t →
  split_features t fs tg = Ok (X0, y0) →
  clean_data_split X0 y0 = Ok (X1, y1) →
  (if training then get_cat_mask X1 else Ok []) = Ok mask →
  _prepare_data fs tg d training w =
  (Ok (X1, if ndim y1 =? 2 then ravel y1 else y1, mask),
   match d with Path path => emit (EvReadData path) w | Table _ => w end).
Proof.
  intros Hload Hsplit Hclean Hmask. unfold _prepare_data, lift_outcome.
  destruct d as [path|t']; [|injection Hload as ->]; run;
    rewrite ?Hload; run; rewrite Hsplit; run; rewrite Hclean; run;
    (destruct training; run; [rewrite Hmask|injection Hmask as <-]; done).
Qed.

(** What [evaluate] does, in terms of the data preparation in evaluation
    mode, the prediction and the report. *)
Lemma run_evaluate (w : world) self m test_data :
  managers w !! self = Some m →
  evaluate self test_data w =
  match _prepare_data (features m) (target m) test_data false
          (emit (EvPrint "The evaluation report will be provided here") w) with
  | (Ok (X, y, _), v) =>
      match predict self (Table (Array X)) v with
      | (Ok y_hat, v') => print_report (task m) y y_hat v'
      | (Raise e, v') => (Raise e, v')
      end
  | (Raise e, v) => (Raise e, v)
  end.
Proof.
  intros Hm. unfold evaluate, print. run.
  rewrite (run_attrs _ _ m) by done. run.
  destruct (_prepare_data _ _ _ _ _) as [[[[X y] mask]|e] v]; run; [|done].
  by destruct (predict _ _ _) as [[y_hat|e] v'].
Qed.

(** C7. [evaluate] prepares the test data with [training=False]: what it
    does is what the preparation in evaluation mode, the prediction on the
    prepared features and the report on the prepared target do, one after
    the other.  That preparation yields the empty mask whenever it yields a
    triple, and the mask detection plays no part in it: when the test data
    can be loaded, split and cleaned, [evaluate] gets to the prediction on
    the cleaned features, whatever [get_cat_mask] would do on them.
    [evaluate] leaves every manager object, and so the mask computed at
    training time, and every pipeline object as they were; a second
    [evaluate] on the same test data returns what the first returned and
    reports the same events. *)
Theorem evaluate_keeps_training_mask (w : world) self test_data :
  let w0 := emit (EvPrint "The evaluation report will be provided here") w in
  let w1 := world_after (evaluate self test_data) w in
  (∀ m,
     managers w !! self = Some m →
     evaluate self test_data w =
     match _prepare_data (features m) (target m) test_data false w0 with
     | (Ok (X, y, _), v) =>
         match predict self (Table (Array X)) v with
         | (Ok y_hat, v') => print_report (task m) y y_hat v'
         | (Raise e, v') => (Raise e, v')
         end
     | (Raise e, v) => (Raise e, v)
     end) ∧
  (∀ m t X0 y0 X1 y1,
     managers w !! self = Some m →
     match test_data with
     | Path path => read_data path
     | Table t' => Ok t'
     end = Ok t →
     split_features t (features m) (target m) = Ok (X0, y0) →
     clean_data_split X0 y0 = Ok (X1, y1) →
     result_of (_prepare_data (features m) (target m) test_data false) w0 =
       Ok (X1, if ndim y1 =? 2 then ravel y1 else y1, []) ∧
     Exists (λ e, e = EvPredict (_pipeline m) X1) (new_events w w1)) ∧
  (∀ fs tg (v v' : world) X y mask,
     _prepare_data fs tg test_data false v = (Ok (X, y, mask), v') →
     mask = []) ∧
  managers w1 = managers w ∧
  data_mask <$> managers w1 !! self = data_mask <$> managers w !! self ∧
  heap w1 = heap w ∧
  result_of (evaluate self test_data) w1 = result_of (evaluate self test_data) w ∧
  new_events w1 (world_after (evaluate self test_data) w1) = new_events w w1.
Proof.
  intros w0 w1.
  destruct (read_only_twice (evaluate self test_data) w
              (read_only_evaluate self test_data))
    as (Hms & Hh & _ & _ & Hr & He).
  fold w1 in Hms, Hh, Hr, He.
  repeat apply conj; try done; [| | |by rewrite Hms].
  - intros m Hm. by apply run_evaluate.
  - intros m t X0 y0 X1 y1 Hm Hload Hsplit Hclean. clear Hms Hh Hr He.
    subst w1. set (w0' := w0). subst w0.
    assert (Hprep : _prepare_data (features m) (target m) test_data false w0' =
              (Ok (X1, if ndim y1 =? 2 then ravel y1 else y1, []),
               match test_data with
               | Path path => emit (EvReadData path) w0'
               | Table _ => w0'
               end))
      by by apply (run_prepare_data _ _ _ _ _ t X0 y0 X1 y1).
    split; [unfold result_of; by rewrite Hprep|].
    unfold world_after.
    rewrite (run_evaluate w self m) by done. fold w0'. rewrite Hprep.
    assert (Hpredict : ∀ v : world,
      managers v = managers w →
      ∃ r, predict self (Table (Array X1)) v =
           (r, emit (EvPredict (_pipeline m) X1) v)).
    { intros v Hv. unfold predict, pipeline_predict, deref, lift_outcome. run.
      rewrite (run_attrs _ _ m) by (by rewrite Hv). run.
      destruct (heap v !! _pipeline m); eauto. }
    assert (Hreport : ∀ y y_hat (v : world),
      ∃ r e, print_report (task m) y y_hat v = (r, emit e v)).
    { intros y y_hat v. unfold print_report, lift_outcome.
      destruct (String.eqb _ _); run; eauto. }
    subst w0'.
    destruct test_data as [path|t'];
      (edestruct Hpredict as [r Hrun]; [|rewrite Hrun]; [by cbn|]);
      destruct r as [y_hat|e]; cbn;
      try (edestruct Hreport as (r' & e' & Hrun'); rewrite Hrun'; cbn);
      events_added; apply Exists_exists; eexists; (split; [|reflexivity]);
      cbn; rewrite !elem_of_cons; eauto.
  - intros fs tg v v' X y mask. unfold _prepare_data.
    destruct test_data as [path|t]; run; unfold lift_outcome.
    + destruct (read_data path) as [t|e]; run; [|done].
      destruct (split_features t fs tg) as [[X0 y0]|e]; run; [|done].
      destruct (clean_data_split X0 y0) as [[X1 y1]|e]; run; [|done].
      by intros [= _ _ <- _].
    + destruct (split_features t fs tg) as [[X0 y0]|e]; run; [|done].
      destruct (clean_data_split X0 y0) as [[X1 y1]|e]; run; [|done].
      by intros [= _ _ <- _].
Qed.

(** C10. When its data preparation and its prediction return, [evaluate]
    calls one report function, whatever the task string is, and ends as that
    call ends, returning when it returns: the call is its last action, of
    the classification report if the task is the string
    ["tabular_classification"] and of the regression report for every other
    string. *)
Theorem evaluate_report_by_task
    (w : world) self m test_data X y mask y_hat (w1 w2 : world) :
  managers w !! self = Some m →
  _prepare_data (features m) (target m) test_data false
    (emit (EvPrint "The evaluation report will be provided here") w) =
    (Ok (X, y, mask), w1) →
  predict self (Table (Array X)) w1 = (Ok y_hat, w2) →
  let w' := world_after (evaluate self test_data) w in
  evaluate self test_data w =
    ((if String.eqb (task m) "tabular_classification"
      then print_classification_report y y_hat
      else print_regression_report y y_hat),
     emit (if String.eqb (task m) "tabular_classification"
           then EvClassificationReport y y_hat
           else EvRegressionReport y y_hat) w2) ∧
  (last (trace w') = Some (EvClassificationReport y y_hat) ↔
   task m = "tabular_classification") ∧
  (last (trace w') = Some (EvRegressionReport y y_hat) ↔
   task m ≠ "tabular_classification").
Proof.
  intros Hm Hprep Hpred w'.
  assert (Hrun : evaluate self test_data w =
    ((if String.eqb (task m) "tabular_classification"
      then print_classification_report y y_hat
      else print_regression_report y y_hat),
     emit (if String.eqb (task m) "tabular_classification"
           then EvClassificationReport y y_hat
           else EvRegressionReport y y_hat) w2)).
  { rewrite (run_evaluate w self m), Hprep, Hpred by done.
    unfold print_report, lift_outcome.
    destruct (String.eqb _ _); run; done. }
  split; [done|]. subst w'. unfold world_after. rewrite Hrun. cbn.
  rewrite last_snoc.
  destruct (String.eqb_spec (task m) "tabular_classification") as [Heq|Hne];
    split; split; try done; by intros [=].
Qed.

(** C9. When the target comes out of the cleaning as a matrix, data
    preparation returns it flattened: the same elements as a vector.  A
    target that is already a vector is returned as it is, so the target of
    the prepared triple is a vector whenever the cleaned target is a vector
    or a matrix; a single column of [n] rows becomes a vector of length
    [n]. *)
Theorem prepare_data_flattens_target
    fs tg d (training : bool) (w : world) t X0 y0 X1 y1 mask :
  match d with Path path => read_data path | Table t' => Ok t' end = Ok t →
  split_features t fs tg = Ok (X0, y0) →
  clean_data_split X0 y0 = Ok (X1, y1) →
  (if training then get_cat_mask X1 else Ok []) = Ok mask →
  ∃ y,
    result_of (_prepare_data fs tg d training) w = Ok (X1, y, mask) ∧
    data y = data y1 ∧
    (ndim y1 = 2 → ndim y = 1 ∧ shape y = [size_of y1]) ∧
    (ndim y1 ≠ 2 → y = y1) ∧
    (ndim y1 = 1 ∨ ndim y1 = 2 → ndim y = 1) ∧
    (∀ n, shape y1 = [n; 1] → shape y = [n]).
Proof.
  intros Hload Hsplit Hclean Hmask.
  exists (if ndim y1 =? 2 then ravel y1 else y1).
  unfold result_of.
  rewrite (run_prepare_data _ _ _ _ _ t X0 y0 X1 y1 mask) by done.
  split; [done|].
  destruct (ndim y1 =? 2) eqn:E;
    [apply Z.eqb_eq in E|apply Z.eqb_neq in E]; cbn; repeat apply conj;
    try done.
  - intros n Hn. unfold size_of. rewrite Hn. cbn. f_equal. lia.
  - intros [H1|?]; done.
  - intros n Hn. unfold ndim in E. by rewrite Hn in E.
Qed.

(** ** The configuration tables *)

(** C5. In both tables the profiles [SuperLearner.mini], [.mid], [.large]
    and [.xlarge] are Super Learners with 10, 5, 3 and 3 folds over the
    estimators of the tiers [mini], [mid], [large] and [x-large] of the
    table's task; resolving ["SuperLearner.mid"] for
    ["tabular_classification"] gives a Super Learner with [cv] 5 over the
    [mid] tier for classification. *)
Theorem tiered_profiles_bind_folds_and_tiers :
  Forall (binds_tier TABULAR_CLASSIFICATION_CONFIGURATIONS
            "tabular_classification") tiered_profiles ∧
  Forall (binds_tier TABULAR_REGRESSION_CONFIGURATIONS
            "tabular_regression") tiered_profiles ∧
  ∃ c,
    resolve "SuperLearner.mid" "tabular_classification" = Ok c ∧
    learner_of c = Some SuperLearner ∧
    learner_kwarg c "cv" = Some (KInt 5) ∧
    learner_kwarg c "base_estimators" =
      Some (KEstimators (_default_estimators "tabular_classification" "mid")).
Proof.
  repeat apply conj.
  - repeat constructor; eexists; repeat apply conj; reflexivity.
  - repeat constructor; eexists; repeat apply conj; reflexivity.
  - eexists; repeat apply conj; reflexivity.
Qed.

(** ** Construction *)

Lemma lookup_flat_map_uniform {A B} (f : A → list B) (l : list A)
    (n a k : nat) (x : A) :
  (∀ y, y ∈ l → length (f y) = n) →
  l !! a = Some x →
  (k < n)%nat →
  flat_map f l !! (a * n + k)%nat = f x !! k.
Proof.
  revert a. induction l as [|y l IH]; intros a Hlen Ha Hk; [done|].
  cbn. destruct a as [|a]; cbn in *.
  - injection Ha as ->. apply lookup_app_l.
    rewrite Hlen; [done|by left].
  - rewrite lookup_app_r; rewrite (Hlen y) by (by left); [|lia].
    replace (n + a * n + k - n)%nat with (a * n + k)%nat by lia.
    apply IH; [|done..]. intros z Hz. apply Hlen. by right.
Qed.

Lemma lookup_omap_total {A B} (g : A → option B) (l : list A) (k : nat) :
  (∀ j, j ∈ l → is_Some (g j)) →
  omap g l !! k = l !! k ≫= g.
Proof.
  revert k. induction l as [|j l IH]; intros k Hg; [done|].
  cbn. destruct (Hg j) as [b Hb]; [by left|]. rewrite Hb.
  destruct k as [|k]; cbn; [done|].
  apply IH. intros z Hz. apply Hg. by right.
Qed.

Lemma length_omap_total {A B} (g : A → option B) (l : list A) :
  (∀ j, j ∈ l → is_Some (g j)) →
  length (omap g l) = length l.
Proof.
  induction l as [|j l IH]; intros Hg; [done|].
  cbn. destruct (Hg j) as [b Hb]; [by left|]. rewrite Hb. cbn.
  rewrite IH; [done|]. intros z Hz. apply Hg. by right.
Qed.

(** Cell [k] of row [i] of the selection is the cell of row [i] of the
    matrix in the [k]-th selected column. *)
Lemma take_columns_lookup (r c : nat) (js : list nat) (d : list cell)
    (i k : nat) :
  length d = (r * c)%nat →
  (∀ j, j ∈ js → (j < c)%nat) →
  (i < r)%nat →
  (k < length js)%nat →
  take_columns r c js d !! (i * length js + k)%nat =
  js !! k ≫= λ j, d !! (i * c + j)%nat.
Proof.
  intros Hd Hjs Hi Hk. unfold take_columns.
  assert (Hin : ∀ i', (i' < r)%nat →
            ∀ j, j ∈ js → is_Some (d !! (i' * c + j)%nat)).
  { intros i' Hi' j Hj. apply lookup_lt_is_Some. rewrite Hd.
    specialize (Hjs j Hj). nia. }
  rewrite (lookup_flat_map_uniform _ _ (length js) i k i).
  - apply lookup_omap_total. by apply Hin.
  - intros i' Hi'. apply length_omap_total, Hin.
    apply elem_of_seq in Hi'. lia.
  - by apply lookup_seq.
  - done.
Qed.

(** The default split: all columns but the last are features, the last one
    is the target. *)
Lemma split_features_default (t : table) (r c : Z) :
  shape (values_of t) = [r; c] →
  0 < c →
  length (data (values_of t)) = (Z.to_nat r * Z.to_nat c)%nat →
  let rows := Z.to_nat r in
  let cols := Z.to_nat c in
  ∃ X y,
    split_features t None None = Ok (X, y) ∧
    shape X = [r; c - 1] ∧
    shape y = [r] ∧
    (∀ i j, (i < rows)%nat → (j < cols - 1)%nat →
       data X !! (i * (cols - 1) + j)%nat =
       data (values_of t) !! (i * cols + j)%nat) ∧
    (∀ i, (i < rows)%nat →
       data y !! i = data (values_of t) !! (i * cols + (cols - 1))%nat).
Proof.
  intros Hs Hc Hd rows cols. unfold split_features. rewrite Hs.
  fold rows cols. destruct (Nat.eqb_spec cols 0) as [H0|H0]; [lia|].
  eexists _, _. repeat apply conj; try reflexivity; cbn.
  - intros i j Hi Hj.
    pose proof (take_columns_lookup rows cols (seq 0 (cols - 1))
                  (data (values_of t)) i j Hd) as Hl.
    rewrite length_seq in Hl. rewrite Hl; [|intros j' Hj'|done..].
    + by rewrite lookup_seq_lt.
    + apply elem_of_seq in Hj'. lia.
  - intros i Hi.
    pose proof (take_columns_lookup rows cols [(cols - 1)%nat]
                  (data (values_of t)) i 0 Hd) as Hl.
    cbn in Hl. rewrite Nat.mul_1_r, Nat.add_0_r in Hl.
    rewrite Hl; [done|intros j' Hj'|done|lia].
    apply list_elem_of_singleton in Hj'. lia.
Qed.

Section Constructor.
Context (on_clash : optval estimator → optval estimator → optval estimator).

#[local] Abbreviation options := (gmap string (optval estimator)).

(** The constructor up to its success: the checks, the preparation of the
    data, the pipeline and the manager it creates. *)
Lemma run_init task d pl (po epo : option options) fs tg (w : world)
    t X0 y0 X1 y1 mask :
  (is_Some fs ↔ is_Some tg) →
  match d with Path path => read_data path | Table t' => Ok t' end = Ok t →
  split_features t fs tg = Ok (X0, y0) →
  clean_data_split X0 y0 = Ok (X1, y1) →
  get_cat_mask X1 = Ok mask →
  let prepared := (X1, if ndim y1 =? 2 then ravel y1 else y1, mask) in
  let o := {| p_class := default default_pipeline pl;
              p_options := effective_options on_clash
                             (default_pipeline_options prepared) po epo;
              p_fitted := None |} in
  let m := {| task := task; features := fs; target := tg;
              _data := prepared; _pipeline := length (heap w) |} in
  let w' := world_after (__init__ on_clash task d pl po epo fs tg) w in
  result_of (__init__ on_clash task d pl po epo fs tg) w =
    Ok (length (managers w)) ∧
  managers w' = managers w ++ [m] ∧
  heap w' = heap w ++ [o].
Proof.
  intros Hboth Hload Hsplit Hclean Hmask prepared o m w'.
  subst w'. unfold result_of, world_after, __init__, TaskManager__init__.
  run.
  assert (Hcheck : ∀ v : world,
    match fs, tg with
    | Some _, None | None, Some _ => raise ConfigurationError
    | _, _ => mret ()
    end v = (Ok (), v)).
  { intros v. destruct fs, tg; try done.
    - destruct Hboth as [Hboth _]. by destruct Hboth.
    - destruct Hboth as [_ Hboth]. by destruct Hboth. }
  rewrite Hcheck. run.
  rewrite (run_prepare_data _ _ _ _ _ t X0 y0 X1 y1 mask) by done.
  run. by destruct d.
Qed.

(** C8. Constructing a manager with [features] but no [target], or with
    [target] but no [features], raises [ConfigurationError] and creates
    nothing.  With neither, the default split takes the last column of the
    table as the target and the other columns, in order, as the features,
    and the manager is built from the triple prepared from them. *)
Theorem construction_checks_features_and_target :
  (∀ task d pl (po epo : option options) fs tg (w : world),
     is_Some fs ∧ tg = None ∨ fs = None ∧ is_Some tg →
     __init__ on_clash task d pl po epo fs tg w =
     (Raise ConfigurationError,
      emit (EvLog ("
Initializing a new TabularTaskManager for task `" +:+ task +:+ "`")) w)) ∧
  (∀ (t : table) (r c : Z),
     shape (values_of t) = [r; c] →
     0 < c →
     length (data (values_of t)) = (Z.to_nat r * Z.to_nat c)%nat →
     let rows := Z.to_nat r in
     let cols := Z.to_nat c in
     ∃ X y,
       split_features t None None = Ok (X, y) ∧
       shape X = [r; c - 1] ∧
       shape y = [r] ∧
       (∀ i j, (i < rows)%nat → (j < cols - 1)%nat →
          data X !! (i * (cols - 1) + j)%nat =
          data (values_of t) !! (i * cols + j)%nat) ∧
       (∀ i, (i < rows)%nat →
          data y !! i = data (values_of t) !! (i * cols + (cols - 1))%nat)) ∧
  (∀ task (t : table) pl (po epo : option options) (w : world)
     X0 y0 X1 y1 mask,
     split_features t None None = Ok (X0, y0) →
     clean_data_split X0 y0 = Ok (X1, y1) →
     get_cat_mask X1 = Ok mask →
     let w' := world_after
                 (__init__ on_clash task (Table t) pl po epo None None) w in
     result_of (__init__ on_clash task (Table t) pl po epo None None) w =
       Ok (length (managers w)) ∧
     _data <$> managers w' !! length (managers w) =
       Some (X1, if ndim y1 =? 2 then ravel y1 else y1, mask)).
Proof.
  repeat apply conj.
  - intros task d pl po epo fs tg w Hone.
    unfold __init__, TaskManager__init__. run.
    by destruct Hone as [[[fs' ->] ->]|[-> [tg' ->]]].
  - apply split_features_default.
  - intros task t pl po epo w X0 y0 X1 y1 mask Hsplit Hclean Hmask w'.
    destruct (run_init task (Table t) pl po epo None None w
                t X0 y0 X1 y1 mask) as (Hr & Hms & _); try done.
    split; [done|]. subst w'. by rewrite Hms, lookup_fresh.
Qed.

(** C4. Pipeline options given at construction are the effective options,
    whatever the defaults and the extra options are.  With extra options
    only, the effective options have the keys of the defaults and the keys of
    the extra options, with the default entry for a key the extra options
    lack and the extra entry for a key the defaults lack; the mask of the
    defaults is among them when the extra options have no mask of their own.
    The constructor builds its pipeline with these options. *)
Theorem effective_options_override_or_merge :
  (∀ (defaults given : options) (epo : option options),
     effective_options on_clash defaults (Some given) epo = given) ∧
  (∀ (defaults extra : options) (k : string),
     let eff := effective_options on_clash defaults None (Some extra) in
     (is_Some (eff !! k) ↔ is_Some (defaults !! k) ∨ is_Some (extra !! k)) ∧
     (extra !! k = None → eff !! k = defaults !! k) ∧
     (defaults !! k = None → eff !! k = extra !! k)) ∧
  (∀ (prepared : ndarray * ndarray * list bool) (extra : options),
     extra !! "mask" = None →
     effective_options on_clash (default_pipeline_options prepared) None
       (Some extra) !! "mask" = Some (OMask prepared.2)) ∧
  (∀ task (t : table) pl (po epo : option options) (w : world)
     X0 y0 X1 y1 mask,
     split_features t None None = Ok (X0, y0) →
     clean_data_split X0 y0 = Ok (X1, y1) →
     get_cat_mask X1 = Ok mask →
     let w' := world_after
                 (__init__ on_clash task (Table t) pl po epo None None) w in
     let prepared := (X1, if ndim y1 =? 2 then ravel y1 else y1, mask) in
     p_options <$> heap w' !! length (heap w) =
       Some (effective_options on_clash (default_pipeline_options prepared)
               po epo)).
Proof.
  repeat apply conj.
  - done.
  - intros defaults extra k eff. subst eff. cbn.
    rewrite lookup_union_with.
    destruct (defaults !! k) as [dv|], (extra !! k) as [ev|]; cbn;
      repeat apply conj; try done; try (intros; by eauto);
      intros [[? [=]]|[? [=]]].
  - intros prepared extra Hnone. cbn. rewrite lookup_union_with, Hnone.
    unfold default_pipeline_options. by rewrite lookup_singleton_eq.
  - intros task t pl po epo w X0 y0 X1 y1 mask Hsplit Hclean Hmask w' prepared.
    destruct (run_init task (Table t) pl po epo None None w
                t X0 y0 X1 y1 mask) as (_ & _ & Hh); try done.
    subst w'. by rewrite Hh, lookup_fresh.
Qed.
End Constructor.

(** ** More on the configuration tables *)

(** X1. The classification table and the regression table define the same
    nine profile names, each once: a profile name is known for one task
    exactly when it is known for the other. *)
Theorem tables_have_the_same_profiles :
  dom TABULAR_CLASSIFICATION_CONFIGURATIONS =
    (list_to_set profile_names : gset string) ∧
  dom TABULAR_REGRESSION_CONFIGURATIONS =
    (list_to_set profile_names : gset string) ∧
  NoDup profile_names ∧
  size TABULAR_CLASSIFICATION_CONFIGURATIONS = 9%nat ∧
  size TABULAR_REGRESSION_CONFIGURATIONS = 9%nat ∧
  (∀ name,
     is_Some (TABULAR_CLASSIFICATION_CONFIGURATIONS !! name) ↔
     is_Some (TABULAR_REGRESSION_CONFIGURATIONS !! name)).
Proof.
  assert (Hc : dom TABULAR_CLASSIFICATION_CONFIGURATIONS =
               (list_to_set profile_names : gset string)).
  { unfold TABULAR_CLASSIFICATION_CONFIGURATIONS.
    by rewrite dom_list_to_map_L. }
  assert (Hr : dom TABULAR_REGRESSION_CONFIGURATIONS =
               (list_to_set profile_names : gset string)).
  { unfold TABULAR_REGRESSION_CONFIGURATIONS.
    by rewrite dom_list_to_map_L. }
  assert (Hnd : NoDup profile_names).
  { unfold profile_names.
    repeat (apply NoDup_cons_2;
            [rewrite ?not_elem_of_cons; repeat split;
             first [apply not_elem_of_nil
                   |apply String.eqb_neq; reflexivity]|]).
    apply NoDup_nil_2. }
  refine (conj Hc (conj Hr (conj Hnd (conj _ (conj _ _))))).
  - rewrite <- (size_dom (D := gset string)), Hc, size_list_to_set by exact Hnd.
    reflexivity.
  - rewrite <- (size_dom (D := gset string)), Hr, size_list_to_set by exact Hnd.
    reflexivity.
  - intros name. rewrite <- !(elem_of_dom (D := gset string)), Hc, Hr.
    reflexivity.
Qed.

(** X2. Every profile of both tables has the same form: the simple tabular
    pipeline, and extra options that hold exactly a learner class and its
    keyword arguments.  The learner class is the one the profile name
    starts with.  The keyword arguments are empty, or the folds and the base
    estimators in a Super Learner profile, or the model class in an Optuna
    or a Plain Learner profile, and nothing else. *)
Theorem profiles_are_well_formed :
  map_Forall profile_well_formed TABULAR_CLASSIFICATION_CONFIGURATIONS ∧
  map_Forall profile_well_formed TABULAR_REGRESSION_CONFIGURATIONS.
Proof.
  split.
  - unfold TABULAR_CLASSIFICATION_CONFIGURATIONS.
    rewrite !list_to_map_cons, list_to_map_nil.
    repeat (apply map_Forall_insert_2;
            [do 2 eexists; split; [reflexivity|split; [reflexivity|]];
             first [left; reflexivity
                   |right; do 2 eexists; reflexivity
                   |right; eexists; reflexivity]|]).
    apply map_Forall_empty.
  - unfold TABULAR_REGRESSION_CONFIGURATIONS.
    rewrite !list_to_map_cons, list_to_map_nil.
    repeat (apply map_Forall_insert_2;
            [do 2 eexists; split; [reflexivity|split; [reflexivity|]];
             first [left; reflexivity
                   |right; do 2 eexists; reflexivity
                   |right; eexists; reflexivity]|]).
    apply map_Forall_empty.
Qed.

(** X3. No profile names anything of the other task: in the classification
    table every model class is the classifier and every list of base
    estimators is a tier of classification, in the regression table the
    regressor and a tier of regression.  The three profiles without a tier
    or a model are the same configuration in both tables. *)
Theorem profiles_belong_to_their_task :
  map_Forall (λ _, profile_of_task "tabular_classification"
                     HistGradientBoostingClassifier)
    TABULAR_CLASSIFICATION_CONFIGURATIONS ∧
  map_Forall (λ _, profile_of_task "tabular_regression"
                     HistGradientBoostingRegressor)
    TABULAR_REGRESSION_CONFIGURATIONS ∧
  Forall (λ name,
            TABULAR_CLASSIFICATION_CONFIGURATIONS !! name =
            TABULAR_REGRESSION_CONFIGURATIONS !! name ∧
            ∃ c, TABULAR_CLASSIFICATION_CONFIGURATIONS !! name = Some c ∧
                 cfg_extra_pipeline_options c !! "learner_kwargs" =
                 Some (OKwargs ∅))
    ["SuperLearner"; "OptunaLearner"; "PlainLearner"].
Proof.
  repeat apply conj.
  - unfold TABULAR_CLASSIFICATION_CONFIGURATIONS.
    rewrite !list_to_map_cons, list_to_map_nil.
    repeat (apply map_Forall_insert_2;
            [split; intros x Hx; vm_compute in Hx;
             [by injection Hx as <- || discriminate Hx
             |first [discriminate Hx | injection Hx as <-; by eexists]]|]).
    apply map_Forall_empty.
  - unfold TABULAR_REGRESSION_CONFIGURATIONS.
    rewrite !list_to_map_cons, list_to_map_nil.
    repeat (apply map_Forall_insert_2;
            [split; intros x Hx; vm_compute in Hx;
             [by injection Hx as <- || discriminate Hx
             |first [discriminate Hx | injection Hx as <-; by eexists]]|]).
    apply map_Forall_empty.
  - repeat constructor; eexists; split; reflexivity.
Qed.
(** ** What the methods leave alone *)

Lemma keeps_managers_ret {A} (a : A) : keeps_managers (mret a).
Proof. done. Qed.

Lemma keeps_managers_raise {A} e : keeps_managers (raise e : Py A).
Proof. done. Qed.

Lemma keeps_managers_lift {A} (o : outcome A) : keeps_managers (lift_outcome o).
Proof. done. Qed.

Lemma keeps_managers_act e : keeps_managers (act e).
Proof. done. Qed.

Lemma keeps_managers_get_world : keeps_managers get_world.
Proof. done. Qed.

Lemma keeps_managers_getenv : keeps_managers getenv_verbosity.
Proof. done. Qed.

Lemma keeps_managers_set_verbosity l : keeps_managers (set_verbosity_level l).
Proof. done. Qed.

Lemma keeps_managers_store p o : keeps_managers (store p o).
Proof. done. Qed.

Lemma keeps_managers_alloc o : keeps_managers (alloc o).
Proof. done. Qed.

Lemma keeps_managers_with_rng (f : N → N) :
  keeps_managers (λ w : world, (Ok (), with_rng (f (rng w)) w)).
Proof. done. Qed.

Lemma keeps_managers_attrs self : keeps_managers (attrs self).
Proof. intros w. unfold attrs. by destruct (managers w !! self). Qed.

Lemma keeps_managers_deref p : keeps_managers (deref p).
Proof. intros w. unfold deref. by destruct (heap w !! p). Qed.

Lemma keeps_managers_bind {A B} (c : Py A) (k : A → Py B) :
  keeps_managers c → (∀ a, keeps_managers (k a)) → keeps_managers (c ≫= k).
Proof.
  intros Hc Hk w. rewrite bind_run. specialize (Hc w).
  destruct (c w) as [[a|e] w1]; cbn in *; [|done].
  by rewrite Hk.
Qed.

Lemma keeps_managers_fmap {A B} (f : A → B) (c : Py A) :
  keeps_managers c → keeps_managers (f <$> c).
Proof.
  intros Hc w. rewrite fmap_run. specialize (Hc w).
  by destruct (c w) as [[a|e] w1].
Qed.

Create HintDb keeps.
#[local] Hint Resolve keeps_managers_ret keeps_managers_raise
  keeps_managers_lift keeps_managers_act keeps_managers_get_world
  keeps_managers_getenv keeps_managers_set_verbosity keeps_managers_store
  keeps_managers_alloc keeps_managers_with_rng keeps_managers_attrs
  keeps_managers_deref : keeps.

(** Decompose a computation along its binds and branches. *)
Ltac keeps_managers :=
  repeat first
    [ progress eauto with keeps
    | apply keeps_managers_fmap
    | apply keeps_managers_bind; [|intros]
    | match goal with
      | |- keeps_managers (match ?x with _ => _ end) => destruct x
      | |- keeps_managers (let '(_, _) := ?x in _) => destruct x
      end ].

Lemma keeps_managers_pipeline_fit p X y : keeps_managers (pipeline_fit p X y).
Proof. unfold pipeline_fit. keeps_managers. Qed.

Lemma keeps_managers_pre_evaluation self : keeps_managers (pre_evaluation self).
Proof.
  unfold pre_evaluation, print_, shape_at, call_tab_cv_score,
    call_train_test_split, deepcopy, pipeline_fit, pipeline_predict,
    call_calculate_model_score.
  keeps_managers.
Qed.

Lemma keeps_managers_main_training self : keeps_managers (main_training self).
Proof. unfold main_training, print_, pipeline_fit. keeps_managers. Qed.

Lemma keeps_managers_train self pre_eval :
  keeps_managers (train self pre_eval).
Proof.
  unfold train.
  pose proof (keeps_managers_pre_evaluation self).
  pose proof (keeps_managers_main_training self).
  keeps_managers.
Qed.

(** ** More on training *)


(** The store a returning [train] leaves: the manager's pipeline is fitted
    on the full data. *)
Lemma train_returns_fitted (pre_eval : bool) (w : world) self m o rows cols r :
  trainable w self m o rows cols →
  result_of (train self pre_eval) w = Ok r →
  r = self ∧
  ∃ o1, heap (train self pre_eval w).2 !! _pipeline m =
        Some (mark_fitted (data_X m) (data_y m) o1).
Proof.
  intros Ht. pose proof Ht as (Hm & Ho & Hs). unfold result_of.
  rewrite run_train. destruct pre_eval.
  - destruct (pre_evaluation_frame w self m o rows cols Ht)
      as (Hms & o1 & Ho1 & _).
    destruct (pre_evaluation self w) as [[s|e] w1]; cbn in *; [|done].
    rewrite (run_main_training w1 self m o1) by (by rewrite ?Hms).
    destruct (fit_raises o1 _ _); cbn; intros [= <-].
    split; [done|]. exists o1. apply list_lookup_insert_eq.
    by eapply lookup_lt_Some.
  - rewrite (run_main_training w self m o) by done.
    destruct (fit_raises o _ _); cbn; intros [= <-].
    split; [done|]. exists o. apply list_lookup_insert_eq.
    by eapply lookup_lt_Some.
Qed.


(** X6. On a small dataset the code of the pre-evaluation itself calls one
    collaborator, the cross-validation scorer, once and with the manager's
    own pipeline; it sets the verbosity back after the call if the call
    returned.  It calls none of [train_test_split], [deepcopy] and
    [calculate_model_score]; what the scorer does inside is its own. *)
Theorem cv_branch_footprint (w : world) self m o rows cols :
  trainable w self m o rows cols →
  cv_affordable rows cols = true →
  let p := _pipeline m in
  let w1 := world_after (pre_evaluation self) w in
  new_events w w1 =
    pre_eval_opening ++
    [EvCvScore p (data_X m) (data_y m) (task m)] ++
    (if returns (pre_evaluation self) w
     then [EvSetVerbosity (verbosity_level w)] else []) ∧
  existsb is_split_step (new_events w w1) = false ∧
  returns (pre_evaluation self) w =
    match (tab_cv_score o (data_X m) (data_y m) (task m)).1 with
    | Ok _ => true
    | Raise _ => false
    end.
Proof.
  intros Ht Hcv p w1. subst w1. unfold returns, result_of, world_after.
  rewrite (run_pre_evaluation_cv _ _ m o rows cols) by done. cbn. fold p.
  destruct (tab_cv_score o _ _ _) as [[score|e] o']; cbn; new_events;
    by repeat apply conj.
Qed.

(** X7. On a large dataset the pre-evaluation never calls the
    cross-validation scorer and asks for one split, which advances the
    random generator once.  The objects of the store are all as before, with
    at most one new object after them, the copy.  When the split, the fit
    and the prediction of the copy and the scoring return, the estimate is
    the score of that one split, and it is not averaged. *)
Theorem split_branch_footprint (w : world) self m o rows cols :
  trainable w self m o rows cols →
  cv_affordable rows cols = false →
  let w1 := world_after (pre_evaluation self) w in
  existsb is_cv_call (new_events w w1) = false ∧
  length (List.filter is_split_request (new_events w w1)) = 1%nat ∧
  rng w1 = N.succ (rng w) ∧
  (∃ extra, heap w1 = heap w ++ extra ∧ (length extra ≤ 1)%nat) ∧
  (∀ X_train X_test y_train y_test pred s,
     train_test_split (rng w) (data_X m) (data_y m) 0.25 =
       Ok (X_train, X_test, y_train, y_test) →
     fit_raises o X_train y_train = None →
     predict_with (mark_fitted X_train y_train o) X_test = Ok pred →
     calculate_model_score y_test pred (task m) = Ok s →
     result_of (pre_evaluation self) w = Ok s).
Proof.
  intros Ht Hcv w1. subst w1. unfold result_of, world_after.
  rewrite (run_pre_evaluation_split _ _ m o rows cols) by done. cbn.
  repeat apply conj.
  - repeat case_match; cbn; by new_events.
  - repeat case_match; cbn; by new_events.
  - by repeat case_match.
  - repeat case_match; cbn;
      first [exists []; split; [by rewrite app_nil_r|cbn; lia]
            |eexists; split; [reflexivity|cbn; lia]].
  - intros X_train X_test y_train y_test pred s Hsplit Hfit Hpred Hscore.
    by rewrite Hsplit, Hfit, Hpred, Hscore.
Qed.

(** X8. After a [train] that returned, predictions come from the manager's
    own pipeline as fitted on the full prepared data, whatever the
    pre-evaluation did before: [predict] on a table returns what that
    pipeline predicts on the values of the table, and [predict_train_set]
    what it predicts on the training features.  Neither changes the
    store. *)
Theorem predictions_come_from_the_full_fit
    (pre_eval : bool) (w : world) self m o rows cols r :
  trainable w self m o rows cols →
  result_of (train self pre_eval) w = Ok r →
  let p := _pipeline m in
  let w' := world_after (train self pre_eval) w in
  ∃ o',
    heap w' !! p = Some o' ∧
    p_fitted o' = Some (data_X m, data_y m) ∧
    (∀ t, predict r (Table t) w' =
          (predict_with o' (values_of t), emit (EvPredict p (values_of t)) w')) ∧
    predict_train_set r w' =
      (predict_with o' (data_X m), emit (EvPredict p (data_X m)) w').
Proof.
  intros Ht Hret p w'. pose proof Ht as (Hm & Ho & Hs).
  destruct (train_returns_fitted pre_eval w self m o rows cols r Ht Hret)
    as (-> & o1 & Ho1).
  assert (Hms : managers w' !! self = Some m).
  { subst w'. unfold world_after.
    pose proof (keeps_managers_train self pre_eval w) as Hk.
    by rewrite Hk. }
  fold p in Ho1. exists (mark_fitted (data_X m) (data_y m) o1).
  assert (Hpredict : ∀ t, predict self (Table t) w' =
            (predict_with (mark_fitted (data_X m) (data_y m) o1) (values_of t),
             emit (EvPredict p (values_of t)) w')).
  { intros t. unfold predict. run. rewrite (run_attrs _ _ m) by done. run.
    by erewrite run_pipeline_predict by exact Ho1. }
  repeat apply conj; try done.
  unfold predict_train_set. run. rewrite (run_attrs _ _ m) by done. run.
  apply (Hpredict (Array (data_X m))).
Qed.
(** ** More on prediction, evaluation and data preparation *)



(** X10. [evaluate] prints its opening line before anything else, also when
    it then fails.  It calls a report function exactly when the data
    preparation and the prediction returned, and it returns exactly when
    that call returns too; when the preparation raises, [evaluate] ends in
    that exception and the pipeline is not asked to predict. *)
Theorem evaluate_reports_when_it_returns (w : world) self m d :
  managers w !! self = Some m →
  let w0 := emit (EvPrint "The evaluation report will be provided here") w in
  let prepared := _prepare_data (features m) (target m) d false w0 in
  let w1 := world_after (evaluate self d) w in
  (∃ rest,
     new_events w w1 =
     EvPrint "The evaluation report will be provided here" :: rest) ∧
  existsb is_report (new_events w w1) =
    match prepared with
    | (Ok (X, _, _), v) => returns (predict self (Table (Array X))) v
    | (Raise _, _) => false
    end ∧
  returns (evaluate self d) w =
    match prepared with
    | (Ok (X, y, _), v) =>
        match predict self (Table (Array X)) v with
        | (Ok y_hat, _) =>
            match (if String.eqb (task m) "tabular_classification"
                   then print_classification_report y y_hat
                   else print_regression_report y y_hat) with
            | Ok _ => true
            | Raise _ => false
            end
        | (Raise _, _) => false
        end
    | (Raise _, _) => false
    end ∧
  match prepared with
  | (Ok _, _) => True
  | (Raise e, _) =>
      result_of (evaluate self d) w = Raise e ∧
      existsb is_predict (new_events w w1) = false
  end.
Proof.
  intros Hm w0 prepared w1. subst prepared w1.
  unfold returns, result_of, world_after.
  rewrite (run_evaluate w self m) by done. fold w0.
  assert (Hw0 : trace w0 = trace w ++
                [EvPrint "The evaluation report will be provided here"])
    by done.
  assert (Hm0 : managers w0 !! self = Some m) by done.
  clearbody w0.
  assert (Hprep : ∃ r t,
    _prepare_data (features m) (target m) d false w0 =
      (r, with_trace (trace w0 ++ t) w0) ∧
    existsb is_report t = false ∧ existsb is_predict t = false).
  { unfold _prepare_data, lift_outcome.
    destruct d as [path|t]; run.
    - destruct (read_data path) as [t|e]; run;
        [|eexists _, [_]; split; [by apply same_run|done]].
      destruct (split_features t _ _) as [[X0 y0]|e]; run;
        [|eexists _, [_]; split; [by apply same_run|done]].
      destruct (clean_data_split X0 y0) as [[X1 y1]|e]; run;
        eexists _, [_]; (split; [by apply same_run|done]).
    - destruct (split_features t _ _) as [[X0 y0]|e]; run;
        [|eexists _, []; split; [apply same_run; cbn; by rewrite ?app_nil_r|done]].
      destruct (clean_data_split X0 y0) as [[X1 y1]|e]; run;
        eexists _, []; (split; [apply same_run; cbn; by rewrite ?app_nil_r|done]). }
  destruct Hprep as (r & t & Hprep & Hquiet & Hquiet').
  rewrite Hprep. clear Hprep.
  destruct r as [[[X y] mask]|e]; cbn.
  2:{ repeat apply conj; try done.
      - eexists. apply new_events_of. cbn. rewrite Hw0, <- app_assoc.
        reflexivity.
      - erewrite new_events_of
          by (cbn; rewrite Hw0, <- app_assoc; reflexivity).
        cbn. exact Hquiet.
      - erewrite new_events_of
          by (cbn; rewrite Hw0, <- app_assoc; reflexivity).
        cbn. exact Hquiet'. }
  assert (Hpredict : ∃ r' t',
    predict self (Table (Array X)) (with_trace (trace w0 ++ t) w0) =
      (r', with_trace (trace w0 ++ t ++ t') w0) ∧
    existsb is_report t' = false).
  { unfold predict, pipeline_predict, attrs, deref, lift_outcome. run.
    rewrite Hm0. run.
    destruct (heap w0 !! _pipeline m) as [o|]; run; eexists _, [_];
      (split; [apply same_run; cbn; rewrite <- ?app_assoc; reflexivity
              |reflexivity]). }
  destruct Hpredict as (r' & t' & Hpredict & Hquiet'').
  rewrite Hpredict. clear Hpredict. destruct r' as [y_hat|e]; cbn.
  - unfold print_report, lift_outcome.
    destruct (String.eqb _ _); run;
      (repeat apply conj; try done;
       [eexists; apply new_events_of; cbn; rewrite Hw0, <- !app_assoc;
        reflexivity
       |erewrite new_events_of
          by (cbn; rewrite Hw0, <- !app_assoc; reflexivity);
        cbn; rewrite !existsb_app; cbn; by rewrite !orb_true_r]).
  - repeat apply conj; try done.
    + eexists. apply new_events_of. cbn. rewrite Hw0, <- !app_assoc.
      reflexivity.
    + erewrite new_events_of
        by (cbn; rewrite Hw0, <- !app_assoc; reflexivity).
      cbn. by rewrite !existsb_app, Hquiet, Hquiet''.
Qed.


(** X12. Whatever the cleaning hands back, the target that data preparation
    returns is never a matrix, and it has the elements of the cleaned
    target in the same order. *)
Theorem prepared_target_is_never_a_matrix
    fs tg d (training : bool) (w w1 : world) X y mask :
  _prepare_data fs tg d training w = (Ok (X, y, mask), w1) →
  ndim y ≠ 2 ∧
  ∃ t X0 y0 y1,
    split_features t fs tg = Ok (X0, y0) ∧
    clean_data_split X0 y0 = Ok (X, y1) ∧
    data y = data y1.
Proof.
  assert (Hflat : ∀ y1, ndim (if ndim y1 =? 2 then ravel y1 else y1) ≠ 2 ∧
                        data (if ndim y1 =? 2 then ravel y1 else y1) = data y1).
  { intros y1. destruct (ndim y1 =? 2) eqn:E; [done|].
    by apply Z.eqb_neq in E. }
  unfold _prepare_data, lift_outcome.
  destruct d as [path|t]; run.
  - destruct (read_data path) as [t|e]; run; [|done].
    destruct (split_features t fs tg) as [[X0 y0]|e] eqn:Hsplit; run; [|done].
    destruct (clean_data_split X0 y0) as [[X1 y1]|e] eqn:Hclean; run; [|done].
    destruct training; run.
    + destruct (get_cat_mask X1); run; intros [= <- <- <- <-].
      split; [apply Hflat|]. exists t, X0, y0, y1.
      repeat split; try done. apply Hflat.
    + intros [= <- <- <- <-].
      split; [apply Hflat|]. exists t, X0, y0, y1.
      repeat split; try done. apply Hflat.
  - destruct (split_features t fs tg) as [[X0 y0]|e] eqn:Hsplit; run; [|done].
    destruct (clean_data_split X0 y0) as [[X1 y1]|e] eqn:Hclean; run; [|done].
    destruct training; run.
    + destruct (get_cat_mask X1); run; intros [= <- <- <- <-].
      split; [apply Hflat|]. exists t, X0, y0, y1.
      repeat split; try done. apply Hflat.
    + intros [= <- <- <- <-].
      split; [apply Hflat|]. exists t, X0, y0, y1.
      repeat split; try done. apply Hflat.
Qed.
End Properties.

(** * The properties on the sample worlds *)

Import Sample.

(** C1 on the 400 by 3 dataset: 1200 cells, so cross-validation. *)
Lemma train_pre_eval_branch_by_shape_witness :
  trainable small_world 0%nat small_manager (sample_pipeline NoFailure 3) 400 3 ∧
  branch_taken (new_events small_world
                  (world_after (train 0%nat true) small_world)) =
    Some CrossValidation.
Proof.
  assert (Ht : trainable small_world 0%nat small_manager
                 (sample_pipeline NoFailure 3) 400 3)
    by (repeat split; reflexivity).
  split; [exact Ht|].
  exact (proj1 (proj2 (proj2
           (train_pre_eval_branch_by_shape small_world 0%nat small_manager
              (sample_pipeline NoFailure 3) 400 3 Ht)))).
Defined.

(** C2, as claimed, fails where the scorer raises: the level read before the
    pre-evaluation is 1, [train] ends in the scorer's exception, and the level
    it leaves is 0. *)
Lemma verbosity_left_silent_when_scoring_raises :
  verbosity_level failing_world = 1 ∧
  result_of (train 0%nat true) failing_world = Raise (Raised "FitFailure") ∧
  verbosity_level (world_after (train 0%nat true) failing_world) = 0 ∧
  verbosity_level (world_after (train 0%nat true) failing_world) ≠
    verbosity_level failing_world.
Proof. repeat split; try reflexivity. done. Qed.

(** C2 as the code has it, on the world whose scorer raises. *)
Lemma pre_evaluation_verbosity_witness :
  trainable failing_world 0%nat small_manager (sample_pipeline ScoringFails 3)
    400 3 ∧
  verbosity (world_after (pre_evaluation 0%nat) failing_world) = Some 0.
Proof.
  assert (Ht : trainable failing_world 0%nat small_manager
                 (sample_pipeline ScoringFails 3) 400 3)
    by (repeat split; reflexivity).
  split; [exact Ht|].
  exact (proj1 (proj2
           (pre_evaluation_verbosity failing_world 0%nat small_manager
              (sample_pipeline ScoringFails 3) 400 3 Ht))).
Defined.

(** C3 on the 500 by 100 dataset: the manager's pipeline is still unfit when
    the pre-evaluation ends, and the copy, object 1, holds the fit on the
    training part of the split. *)
Lemma train_split_branch_keeps_primary_unfit_witness :
  trainable large_world 0%nat large_manager (sample_pipeline NoFailure 100)
    500 100 ∧
  500 ≤ 500 ∧
  50000 ≤ 500 * 100 ∧
  is_fitted (sample_pipeline NoFailure 100) = false ∧
  is_fitted <$> heap (world_after (pre_evaluation 0%nat) large_world) !! 0%nat =
    Some false ∧
  heap (world_after (pre_evaluation 0%nat) large_world) =
    heap large_world ++
    [mark_fitted
       (sample_split (data_X large_manager) (data_y large_manager) 0.25).1.1.1
       (sample_split (data_X large_manager) (data_y large_manager) 0.25).1.2
       (sample_pipeline NoFailure 100)].
Proof.
  assert (Ht : trainable large_world 0%nat large_manager
                 (sample_pipeline NoFailure 100) 500 100)
    by (repeat split; reflexivity).
  assert (Hrows : 500 ≤ 500) by lia.
  assert (Hcells : 50000 ≤ 500 * 100) by lia.
  assert (Hunfit : is_fitted (sample_pipeline NoFailure 100) = false)
    by reflexivity.
  pose proof (train_split_branch_keeps_primary_unfit large_world 0%nat
                large_manager (sample_pipeline NoFailure 100) 500 100
                Ht Hrows Hcells Hunfit)
    as (_ & _ & _ & Hstill & _ & Hcopy).
  refine (conj Ht (conj Hrows (conj Hcells (conj Hunfit (conj Hstill _))))).
  eapply Hcopy; reflexivity.
Defined.

(** C6 on the 400 by 3 dataset, with the pre-evaluation. *)
Lemma train_fits_full_data_and_returns_self_witness :
  trainable small_world 0%nat small_manager (sample_pipeline NoFailure 3) 400 3 ∧
  result_of (train 0%nat true) small_world = Ok 0%nat ∧
  p_fitted <$> heap (world_after (train 0%nat true) small_world) !! 0%nat =
    Some (Some (data_X small_manager, data_y small_manager)) ∧
  existsb is_score_print
    (new_events small_world (world_after (train 0%nat true) small_world)) = true.
Proof.
  assert (Ht : trainable small_world 0%nat small_manager
                 (sample_pipeline NoFailure 3) 400 3)
    by (repeat split; reflexivity).
  assert (Hret : result_of (train 0%nat true) small_world = Ok 0%nat)
    by (reflexivity).
  pose proof (proj2 (train_fits_full_data_and_returns_self true small_world
                       0%nat small_manager (sample_pipeline NoFailure 3)
                       400 3 Ht) 0%nat Hret)
    as (_ & _ & Hfit & _ & Hprint).
  exact (conj Ht (conj Hret (conj Hfit Hprint))).
Defined.

(** C7 on the sample table, in a world whose mask detection raises: the
    evaluation prepares the table with the empty mask and gets to the
    prediction. *)
Lemma evaluate_keeps_training_mask_witness :
  managers maskless_world !! 0%nat = Some small_manager ∧
  @get_cat_mask (sample_collaborators MaskFails) sample_features =
    Raise (Raised "TypeError") ∧
  result_of (_prepare_data None None (Table sample_table) false)
    (emit (EvPrint "The evaluation report will be provided here")
       maskless_world) =
    Ok (sample_features, sample_target, []) ∧
  Exists (λ e, e = EvPredict 0%nat sample_features)
    (new_events maskless_world
       (world_after (evaluate 0%nat (Table sample_table)) maskless_world)) ∧
  managers (world_after (evaluate 0%nat (Table sample_table)) maskless_world) =
    managers maskless_world.
Proof.
  pose proof (evaluate_keeps_training_mask maskless_world 0%nat
                (Table sample_table)) as (_ & Hmode & _ & Hms & _).
  destruct (Hmode small_manager sample_table sample_features sample_target
              sample_features sample_target_column
              eq_refl eq_refl eq_refl eq_refl) as [Hprep Hpredict].
  exact (conj eq_refl (conj eq_refl (conj Hprep (conj Hpredict Hms)))).
Defined.

(** C10 on the sample table: a classification task gets the classification
    report, a task of another name the regression report. *)
Lemma evaluate_report_by_task_witness :
  last (trace (world_after (evaluate 0%nat (Table sample_table)) small_world)) =
    Some (EvClassificationReport sample_target
            {| shape := [3]; data := [Num 1; Num 1; Num 1] |}) ∧
  last (trace (world_after (evaluate 0%nat (Table sample_table))
                 (sample_world NoFailure "clustering" 400 3))) =
    Some (EvRegressionReport sample_target
            {| shape := [3]; data := [Num 1; Num 1; Num 1] |}).
Proof.
  split.
  - apply (evaluate_report_by_task small_world 0%nat small_manager
             (Table sample_table) sample_features sample_target []
             {| shape := [3]; data := [Num 1; Num 1; Num 1] |}
             (emit (EvPrint "The evaluation report will be provided here")
                small_world)
             (emit (EvPredict 0%nat sample_features)
                (emit (EvPrint "The evaluation report will be provided here")
                   small_world))).
    + reflexivity.
    + reflexivity.
    + reflexivity.
    + reflexivity.
  - apply (evaluate_report_by_task (sample_world NoFailure "clustering" 400 3)
             0%nat (sample_manager "clustering" 400 3)
             (Table sample_table) sample_features sample_target []
             {| shape := [3]; data := [Num 1; Num 1; Num 1] |}
             (emit (EvPrint "The evaluation report will be provided here")
                (sample_world NoFailure "clustering" 400 3))
             (emit (EvPredict 0%nat sample_features)
                (emit (EvPrint "The evaluation report will be provided here")
                   (sample_world NoFailure "clustering" 400 3)))).
    + reflexivity.
    + reflexivity.
    + reflexivity.
    + done.
Defined.

(** C9 on the sample table: the cleaning hands the target back as a column
    of three rows, and the prepared target is a vector of length 3. *)
Lemma prepare_data_flattens_target_witness :
  split_features sample_table None None = Ok (sample_features, sample_target) ∧
  @clean_data_split (sample_collaborators NoFailure)
    sample_features sample_target =
    Ok (sample_features, sample_target_column) ∧
  ndim sample_target_column = 2 ∧
  ∃ y,
    result_of (_prepare_data None None (Table sample_table) true) small_world =
      Ok (sample_features, y, [false; false]) ∧
    shape y = [3] ∧
    ndim y = 1.
Proof.
  assert (Hsplit : split_features sample_table None None =
                   Ok (sample_features, sample_target)) by reflexivity.
  assert (Hclean : @clean_data_split (sample_collaborators NoFailure)
                     sample_features sample_target =
                   Ok (sample_features, sample_target_column)) by reflexivity.
  assert (Hmask : (if true
                   then @get_cat_mask (sample_collaborators NoFailure)
                          sample_features
                   else Ok []) = Ok [false; false]) by reflexivity.
  assert (Hdim : ndim sample_target_column = 2) by reflexivity.
  refine (conj Hsplit (conj Hclean (conj Hdim _))).
  destruct (prepare_data_flattens_target None None (Table sample_table) true
              small_world sample_table sample_features sample_target
              sample_features sample_target_column [false; false]
              eq_refl Hsplit Hclean Hmask)
    as (y & Hrun & _ & _ & _ & Hflat & Hcol).
  exists y. exact (conj Hrun (conj (Hcol 3 eq_refl) (Hflat (or_intror Hdim)))).
Defined.

(** C8 on the sample table: features without a target are refused; with
    neither, the split has the two leading columns as features and the
    third as target. *)
Lemma construction_checks_features_and_target_witness :
  __init__ (λ d e, e) "tabular_classification" (Table sample_table)
    None None None (Some [ColIdx 0; ColIdx 1]) None small_world =
    (Raise ConfigurationError,
     emit (EvLog ("
Initializing a new TabularTaskManager for task `"
                  +:+ "tabular_classification" +:+ "`")) small_world) ∧
  ∃ X y,
    split_features sample_table None None = Ok (X, y) ∧
    shape X = [3; 3 - 1] ∧
    shape y = [3] ∧
    data y !! 1%nat = Some (Str "y").
Proof.
  pose proof (construction_checks_features_and_target
                (C := sample_collaborators NoFailure) (λ d e, e))
    as (Hrefuse & Hdefault & _).
  split.
  - apply Hrefuse. left. split; [by eexists|reflexivity].
  - destruct (Hdefault sample_table 3 3 eq_refl eq_refl eq_refl)
      as (X & y & Hsplit & HX & Hy & _ & Hlast).
    exists X, y. refine (conj Hsplit (conj HX (conj Hy _))).
    rewrite (Hlast 1%nat); [reflexivity|]. cbn. lia.
Defined.

(** C4 on sample options: the mask of the defaults and the learner of the
    extra options are both among the effective options, and given pipeline
    options replace everything. *)
Lemma effective_options_override_or_merge_witness :
  sample_extra !! "mask" = None ∧
  effective_options (λ d e, e)
    (default_pipeline_options (sample_features, sample_target, [false; false]))
    None (Some sample_extra) !! "mask" = Some (OMask [false; false]) ∧
  effective_options (λ d e, e)
    (default_pipeline_options (sample_features, sample_target, [false; false]))
    None (Some sample_extra) !! "learner" = Some (OLearner PlainLearner) ∧
  effective_options (λ d e, e)
    (default_pipeline_options (sample_features, sample_target, [false; false]))
    (Some {[ "learner" := OLearner SuperLearner ]}) (Some sample_extra) =
    {[ "learner" := OLearner SuperLearner ]}.
Proof.
  pose proof (effective_options_override_or_merge
                (C := sample_collaborators NoFailure) (λ d e, e))
    as (Hgiven & Hmerge & Hmask & _).
  assert (Hnone : sample_extra !! "mask" = None) by reflexivity.
  refine (conj Hnone (conj (Hmask _ _ Hnone) (conj _ (Hgiven _ _ _)))).
  destruct (Hmerge
              (default_pipeline_options
                 (sample_features, sample_target, [false; false]))
              sample_extra "learner") as (_ & _ & Hextra).
  rewrite Hextra; reflexivity.
Defined.


(** X6 on the 400 by 3 dataset. *)
Lemma cv_branch_footprint_witness :
  trainable small_world 0%nat small_manager (sample_pipeline NoFailure 3) 400 3 ∧
  cv_affordable 400 3 = true ∧
  existsb is_split_step
    (new_events small_world (world_after (pre_evaluation 0%nat) small_world)) =
    false ∧
  returns (pre_evaluation 0%nat) small_world = true.
Proof.
  assert (Ht : trainable small_world 0%nat small_manager
                 (sample_pipeline NoFailure 3) 400 3)
    by (repeat split; reflexivity).
  pose proof (cv_branch_footprint small_world 0%nat small_manager
                (sample_pipeline NoFailure 3) 400 3 Ht eq_refl)
    as (_ & Hsplit & Hret).
  exact (conj Ht (conj eq_refl (conj Hsplit (eq_trans Hret eq_refl)))).
Defined.

(** X7 on the 500 by 100 dataset: one split, and the estimate is the score
    of that split. *)
Lemma split_branch_footprint_witness :
  trainable large_world 0%nat large_manager (sample_pipeline NoFailure 100)
    500 100 ∧
  cv_affordable 500 100 = false ∧
  rng (world_after (pre_evaluation 0%nat) large_world) =
    N.succ (rng large_world) ∧
  result_of (pre_evaluation 0%nat) large_world = Ok 75.
Proof.
  assert (Ht : trainable large_world 0%nat large_manager
                 (sample_pipeline NoFailure 100) 500 100)
    by (repeat split; reflexivity).
  pose proof (split_branch_footprint large_world 0%nat large_manager
                (sample_pipeline NoFailure 100) 500 100 Ht eq_refl)
    as (_ & _ & Hrng & _ & Hscore).
  refine (conj Ht (conj eq_refl (conj Hrng _))).
  eapply Hscore; reflexivity.
Defined.

(** X8 on the 400 by 3 dataset: after training, the sample table is
    predicted by the pipeline fitted on the full data. *)
Lemma predictions_come_from_the_full_fit_witness :
  trainable small_world 0%nat small_manager (sample_pipeline NoFailure 3) 400 3 ∧
  result_of (train 0%nat true) small_world = Ok 0%nat ∧
  ∃ o',
    heap (world_after (train 0%nat true) small_world) !! 0%nat = Some o' ∧
    p_fitted o' = Some (data_X small_manager, data_y small_manager) ∧
    predict 0%nat (Table sample_table)
      (world_after (train 0%nat true) small_world) =
    (predict_with o' (values_of sample_table),
     emit (EvPredict 0%nat (values_of sample_table))
       (world_after (train 0%nat true) small_world)).
Proof.
  assert (Ht : trainable small_world 0%nat small_manager
                 (sample_pipeline NoFailure 3) 400 3)
    by (repeat split; reflexivity).
  assert (Hret : result_of (train 0%nat true) small_world = Ok 0%nat)
    by reflexivity.
  destruct (predictions_come_from_the_full_fit true small_world 0%nat
              small_manager (sample_pipeline NoFailure 3) 400 3 0%nat Ht Hret)
    as (o' & Hheap & Hfit & Hpredict & _).
  refine (conj Ht (conj Hret _)). exists o'.
  exact (conj Hheap (conj Hfit (Hpredict sample_table))).
Defined.


(** X10 on the sample table, in a world whose report functions raise: the
    report is called and the evaluation does not return. *)
Lemma evaluate_reports_when_it_returns_witness :
  managers reportless_world !! 0%nat = Some small_manager ∧
  existsb is_report
    (new_events reportless_world
       (world_after (evaluate 0%nat (Table sample_table)) reportless_world)) =
    true ∧
  returns (evaluate 0%nat (Table sample_table)) reportless_world = false.
Proof.
  assert (Hm : managers reportless_world !! 0%nat = Some small_manager)
    by reflexivity.
  pose proof (evaluate_reports_when_it_returns reportless_world 0%nat
                small_manager (Table sample_table) Hm)
    as (_ & Hreport & Hret & _).
  exact (conj Hm (conj (eq_trans Hreport eq_refl) (eq_trans Hret eq_refl))).
Defined.


(** X12 on the sample table, whose cleaned target is a column. *)
Lemma prepared_target_is_never_a_matrix_witness :
  _prepare_data None None (Table sample_table) true small_world =
    (Ok (sample_features, sample_target, [false; false]), small_world) ∧
  ndim sample_target ≠ 2.
Proof.
  assert (Htrain : _prepare_data None None (Table sample_table) true
                     small_world =
                   (Ok (sample_features, sample_target, [false; false]),
                    small_world)) by reflexivity.
  exact (conj Htrain
           (proj1 (prepared_target_is_never_a_matrix None None
                     (Table sample_table) true small_world small_world
                     sample_features sample_target [false; false] Htrain))).
Defined.
